(** * FHIR patient dashboard: the normalisation, classification and vitals
    reducer of [src/components/Dashboard.jsx], embedded and verified.

    JavaScript values are embedded as a small datatype of JSON-shaped values.
    A JavaScript number is [NaN] or a finite value held as an exact rational
    (negative zero is identified with zero, which no operation of the
    dashboard can tell apart).  The sums and products of the reducer are
    exact: what is stated of them is an equation between the same
    operations or a bound that rounding to binary64 keeps.  The two
    products of the classifier, which its strict comparisons are sensitive
    to, are rounded to binary64, to nearest with ties to even.  A thrown
    exception is the [Throw] completion.  [Math.random] reads an oracle
    [nat -> Q] through a cursor. *)

From Stdlib Require Import ZArith QArith Qround Qabs Qpower Lqa Bool List String Ascii Lia.
From Stdlib Require Import Decimal DecimalString.
From Stdlib Require PrimFloat SpecFloat FloatOps.
Import ListNotations.

Set Warnings "-register-all".

Local Open Scope string_scope.
Local Open Scope Q_scope.

(* ------------------------------------------------------------------ *)
(** ** Numbers *)

Inductive number : Type :=
| NaN
| Num (q : Q).

Definition num_add (a b : number) : number :=
  match a, b with
  | Num x, Num y => Num (Qred (x + y))
  | _, _ => NaN
  end.

Definition num_sub (a b : number) : number :=
  match a, b with
  | Num x, Num y => Num (Qred (x - y))
  | _, _ => NaN
  end.

Definition num_mul (a b : number) : number :=
  match a, b with
  | Num x, Num y => Num (Qred (x * y))
  | _, _ => NaN
  end.

(** The relational operators: every comparison with [NaN] is false. *)
Definition num_le (a b : number) : bool :=
  match a, b with
  | Num x, Num y => Qle_bool x y
  | _, _ => false
  end.

Definition num_lt (a b : number) : bool :=
  match a, b with
  | Num x, Num y => negb (Qle_bool y x)
  | _, _ => false
  end.

Definition num_ge (a b : number) : bool := num_le b a.
Definition num_gt (a b : number) : bool := num_lt b a.

(** [Math.round]: the nearest integer, a tie going up. *)
Definition Math_round (a : number) : number :=
  match a with
  | Num x => Num (inject_Z (Qfloor (x + (1 # 2))))
  | NaN => NaN
  end.

(** [Math.min] and [Math.max] at two arguments. *)
Definition Math_min (a b : number) : number :=
  match a, b with
  | Num x, Num y => if Qle_bool x y then a else b
  | _, _ => NaN
  end.

Definition Math_max (a b : number) : number :=
  match a, b with
  | Num x, Num y => if Qle_bool x y then b else a
  | _, _ => NaN
  end.

(* ------------------------------------------------------------------ *)
(** ** Rounding to binary64 *)

(** The integer nearest to [x], a tie going to the even one. *)
Definition round_half_even (x : Q) : Z :=
  let f := Qfloor x in
  match Qcompare (x - inject_Z f) (1 # 2) with
  | Lt => f
  | Gt => (f + 1)%Z
  | Eq => if Z.even f then f else (f + 1)%Z
  end.

(** The exponent [e] with [2^e <= |x| < 2^(e+1)], for [x] other than 0. *)
Definition binade (x : Q) : Z :=
  let e := (Z.log2 (Z.abs (Qnum x)) - Z.log2 (Zpos (Qden x)))%Z in
  if Qle_bool (2 ^ e) (Qabs x) then e else (e - 1)%Z.

(** The binary64 number nearest to [x], a tie going to the even
    significand: 53 bits of significand, the least exponent [-1074].  A
    result of magnitude [2^1024] or more, which only an [x] past the
    largest binary64 number rounds to, stands for the infinity of its
    sign: no binary64 number reaches it, so it compares with them as the
    infinity does. *)
Definition binary64 (x : Q) : Q :=
  if Qeq_bool x 0 then 0
  else let e := Z.max (binade x - 52) (-1074) in
       Qred (inject_Z (round_half_even (x / 2 ^ e)) * 2 ^ e).

(** A decimal literal of the source: the binary64 number nearest to it. *)
Definition literal (q : Q) : number := Num (binary64 q).

(** [a * b] as binary64 computes it. *)
Definition num_mul_binary64 (a b : number) : number :=
  match a, b with
  | Num x, Num y => Num (binary64 (x * y))
  | _, _ => NaN
  end.

(** The rational a finite binary64 number of the kernel stands for. *)
Definition float_value (f : PrimFloat.float) : option Q :=
  match FloatOps.Prim2SF f with
  | SpecFloat.S754_zero _ => Some 0
  | SpecFloat.S754_finite s m e =>
      Some (Qred ((if s then -1 else 1) * inject_Z (Zpos m) * 2 ^ e))
  | _ => None
  end.

(* ------------------------------------------------------------------ *)
(** ** Values and completions *)

Inductive JSValue : Type :=
| JUndefined
| JNull
| JBool (b : bool)
| JNumber (n : number)
| JString (s : string)
| JArray (a : list JSValue)
| JObject (o : list (string * JSValue)).

(** The outcome of evaluating an expression: a value, or a thrown
    exception (every exception of the modelled code is a [TypeError] or a
    rejected promise, and the only handler does not inspect it). *)
Inductive completion (A : Type) : Type :=
| Normal (a : A)
| Throw.
Arguments Normal {A} a.
Arguments Throw {A}.

Definition cbind {A B : Type} (m : completion A) (f : A -> completion B)
  : completion B :=
  match m with
  | Normal a => f a
  | Throw => Throw
  end.

Declare Scope completion_scope.
Delimit Scope completion_scope with comp.
Notation "x <- m ;; k" := (cbind m (fun x => k))
  (at level 61, m at next level, right associativity) : completion_scope.

Definition nullish (v : JSValue) : bool :=
  match v with
  | JUndefined | JNull => true
  | _ => false
  end.

(** Own property [k] of an object built by [JSON.parse]; the first binding
    of a key stands for the object's one binding of it. *)
Fixpoint lookup (k : string) (o : list (string * JSValue)) : JSValue :=
  match o with
  | [] => JUndefined
  | (k', v) :: o' => if String.eqb k k' then v else lookup k o'
  end.

(** [v?.k] for the property names the dashboard reads ([id], [name],
    [given], [family], [gender], [birthDate], [identifier], [type],
    [coding], [code], [value], [display], [text], [valueQuantity], [unit],
    [component], [effectiveDateTime], [entry], [resource]): none of them is
    a member of a built-in prototype, so only an object's own property can
    answer. *)
Definition oget (v : JSValue) (k : string) : JSValue :=
  match v with
  | JObject o => lookup k o
  | _ => JUndefined
  end.

(** [v.k]: as [v?.k], but a nullish [v] throws. *)
Definition get (v : JSValue) (k : string) : completion JSValue :=
  if nullish v then Throw else Normal (oget v k).

(** [v?.[0]]: the first element of an array, the first character of a
    string, the property ["0"] of an object. *)
Definition oget0 (v : JSValue) : JSValue :=
  match v with
  | JArray a => hd JUndefined a
  | JString (String c _) => JString (String c EmptyString)
  | JObject o => lookup "0" o
  | _ => JUndefined
  end.

(** [ToBoolean]. *)
Definition truthy (v : JSValue) : bool :=
  match v with
  | JUndefined | JNull => false
  | JBool b => b
  | JNumber NaN => false
  | JNumber (Num q) => negb (Qeq_bool q 0)
  | JString s => negb (String.eqb s "")
  | JArray _ | JObject _ => true
  end.

(** [a || b]. *)
Definition js_or (a b : JSValue) : JSValue := if truthy a then a else b.

(** [v === 'lit'] for a string literal. *)
Definition strict_eq_string (v : JSValue) (lit : string) : bool :=
  match v with
  | JString s => String.eqb s lit
  | _ => false
  end.

(* ------------------------------------------------------------------ *)
(** ** Coercions *)

(** The conversions between numbers and text are built-ins of the
    JavaScript runtime whose output format no property below depends on;
    they are an interface of the embedding. *)
Class Builtins : Type := {
  (** [Number::toString] at a finite number *)
  Number_toString : Q -> string;
  (** the abstract operation [StringToNumber] *)
  StringToNumber : string -> number;
  (** [parseFloat] at a string *)
  parseFloat_string : string -> number
}.

Definition has_own (k : string) (o : list (string * JSValue)) : bool :=
  existsb (fun kv => String.eqb k (fst kv)) o.

Section Coercions.
Context {B : Builtins}.

Definition number_to_string (n : number) : string :=
  match n with
  | NaN => "NaN"
  | Num q => Number_toString q
  end.

(** [ToString].  An array prints as its elements joined by commas, an
    [undefined] or [null] element as nothing.  A plain object prints as
    ["[object Object]"] through the inherited [toString]; an own property
    of that name, which [JSON.parse] can only fill with something that is
    not callable, makes the conversion throw. *)
Fixpoint ToString (v : JSValue) : completion string :=
  match v with
  | JUndefined => Normal "undefined"
  | JNull => Normal "null"
  | JBool true => Normal "true"
  | JBool false => Normal "false"
  | JNumber n => Normal (number_to_string n)
  | JString s => Normal s
  | JArray a =>
      (fix commas (l : list JSValue) : completion string :=
         match l with
         | [] => Normal ""
         | x :: l' =>
             cbind (if nullish x then Normal "" else ToString x) (fun sx =>
             match l' with
             | [] => Normal sx
             | _ :: _ => cbind (commas l') (fun r => Normal (sx ++ "," ++ r))
             end)
         end) a
  | JObject o => if has_own "toString" o then Throw else Normal "[object Object]"
  end.

(** [Array.prototype.join(sep)] on the elements of an array. *)
Fixpoint join (sep : string) (l : list JSValue) : completion string :=
  match l with
  | [] => Normal ""
  | x :: l' =>
      cbind (if nullish x then Normal "" else ToString x) (fun sx =>
      match l' with
      | [] => Normal sx
      | _ :: _ => cbind (join sep l') (fun r => Normal (sx ++ sep ++ r))
      end)
  end.

(** [ToPrimitive]: arrays and plain objects become their text. *)
Definition ToPrimitive (v : JSValue) : completion JSValue :=
  match v with
  | JArray _ | JObject _ => cbind (ToString v) (fun s => Normal (JString s))
  | _ => Normal v
  end.

(** [ToNumber] at a primitive value. *)
Definition prim_to_number (v : JSValue) : number :=
  match v with
  | JNull => Num 0
  | JBool true => Num 1
  | JBool false => Num 0
  | JNumber n => n
  | JString s => StringToNumber s
  | _ => NaN
  end.

(** [ToNumber]. *)
Definition ToNumber (v : JSValue) : completion number :=
  cbind (ToPrimitive v) (fun p => Normal (prim_to_number p)).

Definition is_string (v : JSValue) : bool :=
  match v with
  | JString _ => true
  | _ => false
  end.

(** The binary [+]: concatenation as soon as one operand is text. *)
Definition js_add (a b : JSValue) : completion JSValue :=
  cbind (ToPrimitive a) (fun pa =>
  cbind (ToPrimitive b) (fun pb =>
  if is_string pa || is_string pb
  then cbind (ToString pa) (fun sa =>
       cbind (ToString pb) (fun sb => Normal (JString (sa ++ sb))))
  else Normal (JNumber (num_add (prim_to_number pa) (prim_to_number pb))))).

End Coercions.

(* ------------------------------------------------------------------ *)
(** ** Array methods and text helpers *)

(** [Array.prototype.find]: the first element the callback accepts, the
    elements visited in order; an exception of the callback escapes. *)
Fixpoint Array_find (p : JSValue -> completion bool) (l : list JSValue)
  : completion JSValue :=
  match l with
  | [] => Normal JUndefined
  | x :: l' =>
      cbind (p x) (fun b => if b then Normal x else Array_find p l')
  end.

(** [Array.prototype.map], the callback run on the elements in order. *)
Fixpoint Array_map {A : Type} (f : JSValue -> completion A) (l : list JSValue)
  : completion (list A) :=
  match l with
  | [] => Normal []
  | x :: l' =>
      cbind (f x) (fun y => cbind (Array_map f l') (fun ys => Normal (y :: ys)))
  end.

(** [v.find(p)] and [v.map(f)]: only an array has the method; calling the
    missing method of anything else throws. *)
Definition call_find (v : JSValue) (p : JSValue -> completion bool)
  : completion JSValue :=
  match v with
  | JArray a => Array_find p a
  | _ => Throw
  end.

Definition call_map {A : Type} (v : JSValue) (f : JSValue -> completion A)
  : completion (list A) :=
  match v with
  | JArray a => Array_map f a
  | _ => Throw
  end.

(** [String(n)] at a natural number. *)
Definition nat_to_string (n : nat) : string :=
  NilZero.string_of_uint (Nat.to_uint n).

Definition N_to_string (n : N) : string :=
  NilZero.string_of_uint (N.to_uint n).

Fixpoint replicate (n : nat) (c : ascii) : string :=
  match n with
  | O => ""
  | S k => String c (replicate k c)
  end.

(** [s.padStart(len, c)] with a one-character filler. *)
Definition padStart (len : nat) (c : ascii) (s : string) : string :=
  replicate (len - String.length s) c ++ s.

(* ------------------------------------------------------------------ *)
(** ** FHIR resource parsers *)

Record PatientRecord : Type := {
  pat_id : JSValue;
  pat_name : JSValue;
  pat_gender : JSValue;
  pat_birthDate : JSValue;
  pat_mrn : JSValue
}.

(** The two shapes [parseFhirObservation] returns. *)
Inductive ObservationRecord : Type :=
| Scalar (code display value unit date : JSValue)
| Panel (code display systolic diastolic date : JSValue).

Definition obs_code (o : ObservationRecord) : JSValue :=
  match o with
  | Scalar c _ _ _ _ | Panel c _ _ _ _ => c
  end.

Definition obs_value (o : ObservationRecord) : JSValue :=
  match o with
  | Scalar _ _ v _ _ => v
  | Panel _ _ _ _ _ => JUndefined
  end.

Definition obs_systolic (o : ObservationRecord) : JSValue :=
  match o with
  | Scalar _ _ _ _ _ => JUndefined
  | Panel _ _ s _ _ => s
  end.

Definition obs_diastolic (o : ObservationRecord) : JSValue :=
  match o with
  | Scalar _ _ _ _ _ => JUndefined
  | Panel _ _ _ d _ => d
  end.

(** [x.code?.coding?.[0]?.code], for a non-nullish [x]. *)
Definition first_coding_code (x : JSValue) : JSValue :=
  oget (oget0 (oget (oget x "code") "coding")) "code".

(** The callback [c => c.code?.coding?.[0]?.code === lit]. *)
Definition has_code (lit : string) (c : JSValue) : completion bool :=
  cbind (get c "code") (fun cc =>
  Normal (strict_eq_string (oget (oget0 (oget cc "coding")) "code") lit)).

(** The callback [i => i.type?.coding?.[0]?.code === 'MR']. *)
Definition is_MR (i : JSValue) : completion bool :=
  cbind (get i "type") (fun t =>
  Normal (strict_eq_string (oget (oget0 (oget t "coding")) "code") "MR")).

Section Parsers.
Context {B : Builtins}.
Local Open Scope completion_scope.

Definition parseFhirPatient (resource : JSValue) : completion PatientRecord :=
  id <- get resource "id" ;;
  let name0 := oget0 (oget resource "name") in
  let given := oget name0 "given" in
  joined <- (if nullish given then Normal JUndefined
             else match given with
                  | JArray a => s <- join " " a ;; Normal (JString s)
                  | _ => Throw
                  end) ;;
  left <- js_add joined (JString " ") ;;
  name <- js_add left (js_or (oget name0 "family") (JString "")) ;;
  let identifier := oget resource "identifier" in
  found <- (if nullish identifier then Normal JUndefined
            else call_find identifier is_MR) ;;
  Normal {| pat_id := id;
            pat_name := name;
            pat_gender := oget resource "gender";
            pat_birthDate := oget resource "birthDate";
            pat_mrn := js_or (oget found "value") id |}.

Definition parseFhirObservation (obs : JSValue) : completion ObservationRecord :=
  c <- get obs "code" ;;
  let code := oget (oget0 (oget c "coding")) "code" in
  let display :=
    js_or (oget (oget0 (oget c "coding")) "display") (oget c "text") in
  let valueQuantity := oget obs "valueQuantity" in
  let component := oget obs "component" in
  let date := oget obs "effectiveDateTime" in
  if truthy valueQuantity then
    Normal (Scalar code display
              (oget valueQuantity "value")
              (js_or (oget valueQuantity "unit") (JString ""))
              date)
  else if truthy component then
    s <- call_find component (has_code "8480-6") ;;
    d <- call_find component (has_code "8462-4") ;;
    Normal (Panel code display
              (oget (oget s "valueQuantity") "value")
              (oget (oget d "valueQuantity") "value")
              date)
  else
    Normal (Scalar code display JNull (JString "") date).

End Parsers.

(* ------------------------------------------------------------------ *)
(** ** The LOINC table *)

Definition VITAL_CODES : list (string * string) :=
  [ ("8867-4", "hr");
    ("2708-6", "spo2");
    ("8310-5", "temp");
    ("9279-1", "rr");
    ("85354-9", "bp");
    ("8480-6", "bpSys");
    ("8462-4", "bpDia") ].

(** [VITAL_CODES] is an object literal: besides its seven own properties a
    lookup finds the members it inherits from [Object.prototype]. *)
Definition Object_prototype_members : list string :=
  [ "constructor"; "hasOwnProperty"; "isPrototypeOf"; "propertyIsEnumerable";
    "toLocaleString"; "toString"; "valueOf"; "__proto__";
    "__defineGetter__"; "__defineSetter__"; "__lookupGetter__";
    "__lookupSetter__" ].

Inductive member : Type :=
| Own (channel : string)
| Inherited
| Absent.

Fixpoint assoc (k : string) (t : list (string * string)) : option string :=
  match t with
  | [] => None
  | (k', v) :: t' => if String.eqb k k' then Some v else assoc k t'
  end.

(** [VITAL_CODES[key]] at a property key. *)
Definition VITAL_CODES_get (key : string) : member :=
  match assoc key VITAL_CODES with
  | Some ch => Own ch
  | None =>
      if existsb (String.eqb key) Object_prototype_members
      then Inherited else Absent
  end.

(** [vitalType === 'lit']. *)
Definition is_channel (m : member) (lit : string) : bool :=
  match m with
  | Own ch => String.eqb ch lit
  | _ => false
  end.

(* ------------------------------------------------------------------ *)
(** ** The vitals snapshot *)

Inductive Source : Type := sim | fhir.

(** The current value of a scalar channel: a number, or the text that
    [toFixed] produced. *)
Inductive reading : Type :=
| RNum (n : number)
| RStr (s : string).

Record TrendPoint : Type := {
  pt_time : string;
  pt_value : JSValue
}.

Record Channel : Type := {
  ch_value : reading;
  ch_trend : list TrendPoint;
  ch_source : Source
}.

Record BpChannel : Type := {
  sys : number;
  dia : number;
  bp_source : Source
}.

Record Vitals : Type := {
  hr : Channel;
  spo2 : Channel;
  temp : Channel;
  rr : Channel;
  bp : BpChannel
}.

Definition set_hr (v : Vitals) (c : Channel) : Vitals :=
  {| hr := c; spo2 := spo2 v; temp := temp v; rr := rr v; bp := bp v |}.
Definition set_spo2 (v : Vitals) (c : Channel) : Vitals :=
  {| hr := hr v; spo2 := c; temp := temp v; rr := rr v; bp := bp v |}.
Definition set_temp (v : Vitals) (c : Channel) : Vitals :=
  {| hr := hr v; spo2 := spo2 v; temp := c; rr := rr v; bp := bp v |}.
Definition set_rr (v : Vitals) (c : Channel) : Vitals :=
  {| hr := hr v; spo2 := spo2 v; temp := temp v; rr := c; bp := bp v |}.
Definition set_bp (v : Vitals) (c : BpChannel) : Vitals :=
  {| hr := hr v; spo2 := spo2 v; temp := temp v; rr := rr v; bp := c |}.

(* ------------------------------------------------------------------ *)
(** ** Effects: a state that survives a thrown exception *)

Definition M (S A : Type) : Type := S -> completion A * S.

Definition ret {S A : Type} (a : A) : M S A := fun s => (Normal a, s).

Definition throw {S A : Type} : M S A := fun s => (Throw, s).

Definition bind {S A B : Type} (m : M S A) (f : A -> M S B) : M S B :=
  fun s =>
    match m s with
    | (Normal a, s') => f a s'
    | (Throw, s') => (Throw, s')
    end.

(** A computation that only may throw. *)
Definition lift {S A : Type} (c : completion A) : M S A := fun s => (c, s).

Declare Scope effect_scope.
Delimit Scope effect_scope with eff.
Notation "x <- m ;; k" := (bind m (fun x => k))
  (at level 61, m at next level, right associativity) : effect_scope.
Notation "m ;; k" := (bind m (fun _ => k))
  (at level 61, right associativity) : effect_scope.

(** [forEach]: the body run on the elements in order, an accumulator
    standing for the object the body assigns into. *)
Fixpoint forEach {S A X : Type} (body : A -> X -> M S A) (l : list X) (acc : A)
  : M S A :=
  match l with
  | [] => ret acc
  | x :: l' => bind (body acc x) (fun acc' => forEach body l' acc')
  end.

(* ------------------------------------------------------------------ *)
(** ** Trend synthesis, the FHIR merge and the drift tick *)

(** The label of point [i]:
    [`${String(Math.floor(i / 2)).padStart(2, '0')}:${i % 2 === 0 ? '00' : '30'}`]. *)
Definition timeLabel (i : nat) : string :=
  padStart 2 "0"%char (nat_to_string (i / 2))
  ++ ":" ++ (if Nat.eqb (i mod 2) 0 then "00" else "30").

(** [parseFloat(value)] at the current value of a channel: the argument is
    first turned into text, and a number printed and read back is itself. *)
Definition parseFloat {B : Builtins} (r : reading) : number :=
  match r with
  | RNum n => n
  | RStr s => parseFloat_string s
  end.

(** [x.toFixed(1)] at a number: the nearest tenth, a tie going away from
    zero, printed with one decimal digit; from [10^21] on, the plain
    conversion to text. *)
Definition toFixed1 {B : Builtins} (n : number) : string :=
  match n with
  | NaN => "NaN"
  | Num q =>
      let s := if Qle_bool 0 q then "" else "-" in
      let x := Qabs q in
      if Qle_bool (inject_Z (10 ^ 21)) x then s ++ Number_toString x
      else
        let n := Z.to_N (Qfloor (x * 10 + (1 # 2))) in
        s ++ N_to_string (n / 10) ++ "." ++ N_to_string (n mod 10)
  end.

(** [v.toFixed(1)] at any value: only a number has the method. *)
Definition call_toFixed1 {B : Builtins} (v : JSValue) : completion string :=
  match v with
  | JNumber n => Normal (toFixed1 n)
  | _ => Throw
  end.

Section Reducer.
Context {B : Builtins}.

(** The successive results of [Math.random()]. *)
Variable random : nat -> Q.

Local Open Scope effect_scope.

Definition Math_random : M nat Q := fun c => (Normal (random c), S c).

(** [(Math.random() - 0.5) * width] at the draw [r]. *)
Definition spread (r : Q) (width : number) : number :=
  num_mul (num_sub (Num r) (Num (5 # 10))) width.

(** The callback of [Array.from] run at the indices [i], [i+1], ... *)
Fixpoint trend_points (base : JSValue) (variance : number) (i n : nat)
  : M nat (list TrendPoint) :=
  match n with
  | O => ret []
  | S k =>
      r <- Math_random ;;
      v <- lift (js_add base (JNumber (spread r variance))) ;;
      rest <- trend_points base variance (S i) k ;;
      ret ({| pt_time := timeLabel i; pt_value := v |} :: rest)
  end.

Definition generateTrend (base : JSValue) (variance : number) (count : nat)
  : M nat (list TrendPoint) :=
  trend_points base variance 0 count.

(** [count = 20], the default every call of the dashboard relies on. *)
Definition default_count : nat := 20.

(** [VITAL_CODES[obs.code]]: the code is first turned into a property key. *)
Definition vitalType_of (obs : ObservationRecord) : completion member :=
  cbind (ToString (obs_code obs)) (fun key => Normal (VITAL_CODES_get key)).

(** [Math.round(v)] at any value: the argument is first made a number. *)
Definition Math_round_of (v : JSValue) : completion number :=
  cbind (ToNumber v) (fun n => Normal (Math_round n)).

(** The body of [observations.forEach] in [loadPatient]; every object
    literal evaluates its [value] (or [sys], [dia]) before its [trend]. *)
Definition merge_obs (newVitals : Vitals) (obs : ObservationRecord)
  : M nat Vitals :=
  vitalType <- lift (vitalType_of obs) ;;
  if is_channel vitalType "hr" && truthy (obs_value obs) then
    value <- lift (Math_round_of (obs_value obs)) ;;
    trend <- generateTrend (obs_value obs) (Num 15) default_count ;;
    ret (set_hr newVitals
           {| ch_value := RNum value; ch_trend := trend; ch_source := fhir |})
  else if is_channel vitalType "spo2" && truthy (obs_value obs) then
    value <- lift (Math_round_of (obs_value obs)) ;;
    trend <- generateTrend (obs_value obs) (Num 3) default_count ;;
    ret (set_spo2 newVitals
           {| ch_value := RNum value; ch_trend := trend; ch_source := fhir |})
  else if is_channel vitalType "temp" && truthy (obs_value obs) then
    value <- lift (call_toFixed1 (obs_value obs)) ;;
    trend <- generateTrend (obs_value obs) (Num (8 # 10)) default_count ;;
    ret (set_temp newVitals
           {| ch_value := RStr value; ch_trend := trend; ch_source := fhir |})
  else if is_channel vitalType "rr" && truthy (obs_value obs) then
    value <- lift (Math_round_of (obs_value obs)) ;;
    trend <- generateTrend (obs_value obs) (Num 4) default_count ;;
    ret (set_rr newVitals
           {| ch_value := RNum value; ch_trend := trend; ch_source := fhir |})
  else if is_channel vitalType "bp" && truthy (obs_systolic obs) then
    s <- lift (Math_round_of (obs_systolic obs)) ;;
    d <- lift (Math_round_of (obs_diastolic obs)) ;;
    ret (set_bp newVitals {| sys := s; dia := d; bp_source := fhir |})
  else ret newVitals.

(** [observations.forEach(...)] started from the copy of [vitals]. *)
Definition merge (vitals0 : Vitals) (observations : list ObservationRecord)
  : M nat Vitals :=
  forEach merge_obs observations vitals0.

(** The initial value of the [vitals] state cell. *)
Definition initialVitals : M nat Vitals :=
  hr_trend <- generateTrend (JNumber (Num 72)) (Num 15) default_count ;;
  spo2_trend <- generateTrend (JNumber (Num 98)) (Num 3) default_count ;;
  temp_trend <- generateTrend (JNumber (Num (372 # 10))) (Num (8 # 10))
                  default_count ;;
  rr_trend <- generateTrend (JNumber (Num 16)) (Num 4) default_count ;;
  ret {| hr := {| ch_value := RNum (Num 72); ch_trend := hr_trend;
                  ch_source := sim |};
         spo2 := {| ch_value := RNum (Num 98); ch_trend := spo2_trend;
                    ch_source := sim |};
         temp := {| ch_value := RNum (Num (372 # 10)); ch_trend := temp_trend;
                    ch_source := sim |};
         rr := {| ch_value := RNum (Num 16); ch_trend := rr_trend;
                  ch_source := sim |};
         bp := {| sys := Num 118; dia := Num 76; bp_source := sim |} |}.

(** [trend.slice(1)]. *)
Definition slice1 (t : list TrendPoint) : list TrendPoint := tl t.

(** [[...trend.slice(1), { time: 'now', value }]]. *)
Definition advance (t : list TrendPoint) (value : number) : list TrendPoint :=
  slice1 t ++ [ {| pt_time := "now"; pt_value := JNumber value |} ].

(** The updater of the interval callback, [Math.random] called ten times
    in the order of the object literal. *)
Definition drift (v : Vitals) (c : nat) : Vitals * nat :=
  let cur (ch : Channel) := parseFloat (ch_value ch) in
  ({| hr :=
        {| ch_value := RNum (Math_round
                               (num_add (cur (hr v)) (spread (random c) (Num 4))));
           ch_trend := advance (ch_trend (hr v))
                         (num_add (cur (hr v)) (spread (random (c + 1)) (Num 5)));
           ch_source := ch_source (hr v) |};
      spo2 :=
        {| ch_value := RNum (Math_max (Num 94) (Math_min (Num 100)
                               (Math_round
                                  (num_add (cur (spo2 v))
                                     (spread (random (c + 2)) (Num 2))))));
           ch_trend := advance (ch_trend (spo2 v))
                         (num_add (cur (spo2 v)) (spread (random (c + 3)) (Num 2)));
           ch_source := ch_source (spo2 v) |};
      temp :=
        {| ch_value := RStr (toFixed1
                               (num_add (cur (temp v))
                                  (spread (random (c + 4)) (Num (1 # 10)))));
           ch_trend := advance (ch_trend (temp v))
                         (num_add (cur (temp v))
                            (spread (random (c + 5)) (Num (2 # 10))));
           ch_source := ch_source (temp v) |};
      rr :=
        {| ch_value := RNum (Math_round
                               (num_add (cur (rr v)) (spread (random (c + 6)) (Num 2))));
           ch_trend := advance (ch_trend (rr v))
                         (num_add (cur (rr v)) (spread (random (c + 7)) (Num 2)));
           ch_source := ch_source (rr v) |};
      bp :=
        {| sys := Math_round (num_add (sys (bp v)) (spread (random (c + 8)) (Num 4)));
           dia := Math_round (num_add (dia (bp v)) (spread (random (c + 9)) (Num 3)));
           bp_source := bp_source (bp v) |} |},
   c + 10)%nat.

End Reducer.

(* ------------------------------------------------------------------ *)
(** ** The status classifier *)

Inductive Status : Type := normal | warning | critical.

(** [min * 0.9] and [max * 1.1] are binary64 products of the bound and
    the binary64 number nearest to the literal. *)
Definition getStatus {B : Builtins} (val : reading) (min max : number) : Status :=
  let v := parseFloat val in
  if num_ge v min && num_le v max then normal
  else if num_lt v (num_mul_binary64 min (literal (9 # 10)))
          || num_gt v (num_mul_binary64 max (literal (11 # 10)))
       then critical
       else warning.

(* ------------------------------------------------------------------ *)
(** ** The component state and its two triggers *)

(** A reading of the clock ([new Date()]). *)
Definition Date : Type := Z.

Record FhirStatus : Type := {
  connected : bool;
  lastSync : option Date
}.

(** The state cells of [Dashboard]; [patient] is [null] until a load. *)
Record DashboardState : Type := {
  time : Date;
  patient : option PatientRecord;
  loading : bool;
  fhirStatus : FhirStatus;
  vitals : Vitals
}.

(** The state cells together with the cursor of [Math.random]. *)
Definition World : Type := (DashboardState * nat)%type.

Definition setTime (t : Date) : M World unit :=
  fun w => (Normal tt,
            ({| time := t; patient := patient (fst w); loading := loading (fst w);
                fhirStatus := fhirStatus (fst w); vitals := vitals (fst w) |}, snd w)).

Definition setPatient (p : option PatientRecord) : M World unit :=
  fun w => (Normal tt,
            ({| time := time (fst w); patient := p; loading := loading (fst w);
                fhirStatus := fhirStatus (fst w); vitals := vitals (fst w) |}, snd w)).

Definition setLoading (b : bool) : M World unit :=
  fun w => (Normal tt,
            ({| time := time (fst w); patient := patient (fst w); loading := b;
                fhirStatus := fhirStatus (fst w); vitals := vitals (fst w) |}, snd w)).

Definition setFhirStatus (f : FhirStatus) : M World unit :=
  fun w => (Normal tt,
            ({| time := time (fst w); patient := patient (fst w);
                loading := loading (fst w);
                fhirStatus := f; vitals := vitals (fst w) |}, snd w)).

Definition setVitals (v : Vitals) : M World unit :=
  fun w => (Normal tt,
            ({| time := time (fst w); patient := patient (fst w);
                loading := loading (fst w);
                fhirStatus := fhirStatus (fst w); vitals := v |}, snd w)).

(** A computation on the cursor alone, run inside the world. *)
Definition on_cursor {A : Type} (m : M nat A) : M World A :=
  fun w => let (r, c) := m (snd w) in (r, (fst w, c)).

(** [try { body } catch (err) { handler }]. *)
Definition try_catch {S : Type} (body handler : M S unit) : M S unit :=
  fun s =>
    match body s with
    | (Normal u, s') => (Normal u, s')
    | (Throw, s') => handler s'
    end.

(** What [await fetch(url)] followed by [await res.json()] yields: the
    parsed body, or a rejection (no connection, or a body that is not
    JSON). *)
Inductive Response : Type :=
| Rejected
| Resolved (body : JSValue).

Definition await {S : Type} (r : Response) : M S JSValue :=
  match r with
  | Rejected => throw
  | Resolved body => ret body
  end.

Section Triggers.
Context {B : Builtins}.
Variable random : nat -> Q.
Local Open Scope effect_scope.

(** The callback of [obsBundle.entry.map]. *)
Definition parse_entry (e : JSValue) : completion ObservationRecord :=
  cbind (get e "resource") parseFhirObservation.

(** The [try] block of [loadPatient]; [vitals0] is the snapshot the
    closure captured, [patRes] and [obsRes] what the two requests yield,
    [now] the clock when the load completes. *)
Definition loadPatient_try (vitals0 : Vitals) (patRes obsRes : Response)
  (now : Date) : M World unit :=
  patData <- await patRes ;;
  p <- lift (parseFhirPatient patData) ;;
  setPatient (Some p) ;;
  obsBundle <- await obsRes ;;
  entry <- lift (get obsBundle "entry") ;;
  (if truthy entry then
     observations <- lift (call_map entry parse_entry) ;;
     newVitals <- on_cursor (merge random vitals0 observations) ;;
     setVitals newVitals
   else ret tt) ;;
  setFhirStatus {| connected := true; lastSync := Some now |}.

Definition loadPatient (patRes obsRes : Response) (now : Date) (w : World)
  : World :=
  snd ((setLoading true ;;
        try_catch
          (loadPatient_try (vitals (fst w)) patRes obsRes now)
          (setFhirStatus {| connected := false; lastSync := None |}) ;;
        setLoading false) w).

(** One firing of the interval callback. *)
Definition tick (now : Date) (w : World) : World :=
  snd ((setTime now ;;
        (fun w' => let (v, c) := drift random (vitals (fst w')) (snd w') in
                   setVitals v (fst w', c))) w).

End Triggers.

(* ------------------------------------------------------------------ *)
(** ** A decimal instance of the built-ins, to run the embedding *)

(** Digits of the fractional part [n / d], at most [fuel] of them. *)
Fixpoint frac_digits (fuel : nat) (n d : N) : string :=
  match fuel with
  | O => ""
  | S k =>
      if N.eqb n 0 then ""
      else N_to_string ((n * 10) / d) ++ frac_digits k ((n * 10) mod d) d
  end.

(** An integer prints as its digits, another number with the digits of its
    decimal expansion (cut after twenty). *)
Definition decimal_toString (q : Q) : string :=
  let r := Qred q in
  let n := Z.abs_N (Qnum r) in
  let d := Npos (Qden r) in
  let sign := if Qle_bool 0 q then "" else "-" in
  let frac := frac_digits 20 (n mod d) d in
  sign ++ N_to_string (n / d)
       ++ (if String.eqb frac "" then "" else "." ++ frac).

Definition digit_of (c : ascii) : option N :=
  let n := N_of_ascii c in
  if (48 <=? n)%N && (n <=? 57)%N then Some (n - 48)%N else None.

(** The digits at the head of [s] read after [acc], how many they are, and
    the rest of the text. *)
Fixpoint read_digits (s : string) (acc : N) (count : nat) : N * nat * string :=
  match s with
  | EmptyString => (acc, count, s)
  | String c s' =>
      match digit_of c with
      | Some d => read_digits s' (acc * 10 + d)%N (S count)
      | None => (acc, count, s)
      end
  end.

(** The longest prefix [digits[.digits]] of [s], as a number. *)
Definition read_decimal (s : string) : option (Q * string) :=
  let '(ip, ni, rest) := read_digits s 0%N O in
  match rest with
  | String "."%char rest' =>
      let '(fp, nf, rest'') := read_digits rest' 0%N O in
      if Nat.eqb (ni + nf) 0 then None
      else Some (Qred (inject_Z (Z.of_N ip)
                       + inject_Z (Z.of_N fp) / inject_Z (10 ^ Z.of_nat nf)),
                 rest'')
  | _ => if Nat.eqb ni 0 then None else Some (inject_Z (Z.of_N ip), rest)
  end.

Definition read_signed (s : string) : option (Q * string) :=
  match s with
  | String "-"%char s' =>
      match read_decimal s' with
      | Some (q, rest) => Some (Qred (- q), rest)
      | None => None
      end
  | String "+"%char s' => read_decimal s'
  | _ => read_decimal s
  end.

(** Plain decimal notation, without exponents: enough for every text the
    dashboard itself produces. *)
Definition decimal_builtins : Builtins := {|
  Number_toString := decimal_toString;
  StringToNumber := fun s =>
    if String.eqb s "" then Num 0
    else match read_signed s with
         | Some (q, "") => Num q
         | _ => NaN
         end;
  parseFloat_string := fun s =>
    match read_signed s with
    | Some (q, _) => Num q
    | None => NaN
    end
|}.

(* ------------------------------------------------------------------ *)
(** ** The derived displays, the age and the patient search *)

(** [Math.floor]. *)
Definition Math_floor (a : number) : number :=
  match a with
  | Num x => Num (inject_Z (Qfloor x))
  | NaN => NaN
  end.

(** [a / b]; the one division of the dashboard has a non-zero literal for
    divisor (a zero divisor, whose quotient is an infinity, is outside the
    model). *)
Definition num_div (a b : number) : number :=
  match a, b with
  | Num x, Num y => if Qeq_bool y 0 then NaN else Num (Qred (x / y))
  | _, _ => NaN
  end.

(** The label of the blood pressure card:
    [vitals.bp.sys < 120 && vitals.bp.dia < 80 ? 'Normal' : 'Elevated']. *)
Definition bpLabel (b : BpChannel) : string :=
  if num_lt (sys b) (Num 120) && num_lt (dia b) (Num 80)
  then "Normal" else "Elevated".

Definition is_fhir (s : Source) : bool :=
  match s with
  | fhir => true
  | sim => false
  end.

(** Whether the heading shows the FHIR Data badge:
    [Object.values(vitals).some(v => v.source === 'fhir')]. *)
Definition showsFhirData (v : Vitals) : bool :=
  existsb is_fhir
    [ ch_source (hr v); ch_source (spo2 v); ch_source (temp v);
      ch_source (rr v); bp_source (bp v) ].

Section Age.
Context {B : Builtins}.

(** The time value of [new Date(v)], a built-in of the runtime: [NaN] for
    an invalid date, an exception when [v] cannot be made primitive. *)
Variable new_Date : JSValue -> completion number.

(** [patient?.birthDate
      ? Math.floor((new Date() - new Date(patient.birthDate)) / 31557600000)
      : null], where [now] is the time value of [new Date()]. *)
Definition age (patient : option PatientRecord) (now : Date) : completion JSValue :=
  let birthDate := match patient with
                   | Some p => pat_birthDate p
                   | None => JUndefined
                   end in
  if truthy birthDate then
    cbind (new_Date birthDate) (fun born =>
    Normal (JNumber (Math_floor
                       (num_div (num_sub (Num (inject_Z now)) born)
                                (Num 31557600000)))))
  else Normal JNull.

(** The age part of the patient line:
    [age ? `${age} years` : 'Age unknown']. *)
Definition ageText (a : JSValue) : completion string :=
  if truthy a
  then cbind (ToString a) (fun s => Normal (s ++ " years"))
  else Normal "Age unknown".

End Age.

(** The state cells of [PatientSearch]. *)
Record SearchState : Type := {
  query : string;
  results : list PatientRecord;
  searching : bool
}.

Definition setResults (r : list PatientRecord) : M SearchState unit :=
  fun s => (Normal tt, {| query := query s; results := r; searching := searching s |}).

Definition setSearching (b : bool) : M SearchState unit :=
  fun s => (Normal tt, {| query := query s; results := results s; searching := b |}).

Definition setQuery (q : string) : M SearchState unit :=
  fun s => (Normal tt, {| query := q; results := results s; searching := searching s |}).

Section Search.
Context {B : Builtins}.

(** [String.prototype.trim], a built-in of the runtime. *)
Variable String_trim : string -> string.

Local Open Scope effect_scope.

(** The callback [e => parseFhirPatient(e.resource)]. *)
Definition parse_patient_entry (e : JSValue) : completion PatientRecord :=
  cbind (get e "resource") parseFhirPatient.

(** The [try] block of [searchPatients]; [res] is what the request yields. *)
Definition searchPatients_try (res : Response) : M SearchState unit :=
  bundle <- await res ;;
  entry <- lift (get bundle "entry") ;;
  patients <- lift (call_map (js_or entry (JArray [])) parse_patient_entry) ;;
  setResults patients.

Definition searchPatients (res : Response) (s : SearchState) : SearchState :=
  if String.eqb (String_trim (query s)) "" then s
  else snd ((setSearching true ;;
             try_catch (searchPatients_try res) (ret tt) ;;
             setSearching false) s).

(** The click on a result, after it handed the id to [onSelect]:
    [setResults([]); setQuery('')]. *)
Definition clearSearch (s : SearchState) : SearchState :=
  snd ((setResults [] ;; setQuery "") s).

End Search.

(** The state cells at the first render, [now] being the clock then and
    [v] the seeded channels. *)
Definition initialState (now : Date) (v : Vitals) : DashboardState :=
  {| time := now;
     patient := None;
     loading := false;
     fhirStatus := {| connected := false; lastSync := None |};
     vitals := v |}.

(** What the dashboard reacts to: the interval firing, and the load of a
    selected patient running to its end. *)
Inductive Event : Type :=
| Tick (now : Date)
| Load (patRes obsRes : Response) (now : Date).

Definition handle {B : Builtins} (random : nat -> Q) (e : Event) (w : World)
  : World :=
  match e with
  | Tick now => tick random now w
  | Load patRes obsRes now => loadPatient random patRes obsRes now w
  end.

(** Events handled one after the other. *)
Definition run_events {B : Builtins} (random : nat -> Q) (es : list Event)
  (w : World) : World :=
  fold_left (fun w' e => handle random e w') es w.

(* ------------------------------------------------------------------ *)
(** ** Vocabulary of the statements *)

(** What [Math.random] promises: a draw in the half-open unit interval. *)
Definition unit_draws (random : nat -> Q) : Prop := forall i : nat, 0 <= random i /\ random i < 1.

(** The point [generateTrend] builds at index [i] from the draw [r], for
    a numeric base line. *)
Definition numeric_point (base : Q) (variance : number) (i : nat) (r : Q)
  : TrendPoint :=
  {| pt_time := timeLabel i;
     pt_value := JNumber (num_add (Num base) (spread r variance)) |}.

Definition half_hour_labels : list string :=
  [ "00:00"; "00:30"; "01:00"; "01:30"; "02:00"; "02:30"; "03:00"; "03:30";
    "04:00"; "04:30"; "05:00"; "05:30"; "06:00"; "06:30"; "07:00"; "07:30";
    "08:00"; "08:30"; "09:00"; "09:30" ].

(** The critical margins as the classifier computes them: [low * 0.9] and
    [high * 1.1] in binary64. *)
Definition lower_margin (low : Q) : Q := binary64 (low * binary64 (9 # 10)).

Definition upper_margin (high : Q) : Q := binary64 (high * binary64 (11 # 10)).



(** The component a panel side is read from: the first one whose first
    coding carries the code. *)
Definition component_coded (lit : string) (comps : list JSValue) : option JSValue :=
  List.find (fun c => strict_eq_string (first_coding_code c) lit) comps.

Definition quantity_value (c : option JSValue) : JSValue :=
  match c with
  | Some x => oget (oget x "valueQuantity") "value"
  | None => JUndefined
  end.

(** The channel names a branch of the merge tests for. *)
Definition merged_channels : list string := [ "hr"; "spo2"; "temp"; "rr"; "bp" ].

(** A LOINC code is written with decimal digits and a hyphen. *)
Definition loinc_char (c : ascii) : bool :=
  let n := N_of_ascii c in
  ((48 <=? n)%N && (n <=? 57)%N) || (n =? 45)%N.

Definition loinc_shaped (code : string) : bool :=
  forallb loinc_char (list_ascii_of_string code).

(** A reading that is zero or not there. *)
Definition zero_or_absent (v : JSValue) : Prop :=
  v = JUndefined \/ v = JNull \/ exists q, v = JNumber (Num q) /\ q == 0.

(** An observation whose code resolves to none of the channels the merge
    updates. *)
Definition unrecognised {B : Builtins} (obs : ObservationRecord) : Prop :=
  exists m, vitalType_of obs = Normal m
            /\ forall lit, In lit merged_channels -> is_channel m lit = false.

(** The load ends in the [catch] block: a request was rejected, or a parse
    or the merge threw. *)
Definition load_fails {B : Builtins} (random : nat -> Q) (w : World)
  (patRes obsRes : Response) (now : Date) : Prop :=
  fst (loadPatient_try random (vitals (fst w)) patRes obsRes now
         (snd (setLoading true w)))
  = Throw.

Definition disconnected : FhirStatus := {| connected := false; lastSync := None |}.


(** Ticks fired one after the other, at the given readings of the clock. *)
Definition run_ticks {B : Builtins} (random : nat -> Q) (nows : list Date)
  (w : World) : World :=
  fold_left (fun w' now => tick random now w') nows w.

(** The lengths of the four trend series. *)
Definition trend_lengths (v : Vitals) : list nat :=
  map (fun ch => List.length (ch_trend ch)) [ hr v; spo2 v; temp v; rr v ].

(** [x] is a number at most [radius] away from the number [centre]. *)
Definition within (radius : Q) (centre x : number) : Prop :=
  exists a b, centre = Num a /\ x = Num b /\ a - radius <= b /\ b <= a + radius.

(** Every channel that was server-sourced in [v] is server-sourced in
    [v']. *)
Definition fhir_kept (v v' : Vitals) : Prop :=
  (ch_source (hr v) = fhir -> ch_source (hr v') = fhir)
  /\ (ch_source (spo2 v) = fhir -> ch_source (spo2 v') = fhir)
  /\ (ch_source (temp v) = fhir -> ch_source (temp v') = fhir)
  /\ (ch_source (rr v) = fhir -> ch_source (rr v') = fhir)
  /\ (bp_source (bp v) = fhir -> bp_source (bp v') = fhir).

(** [i.type?.coding?.[0]?.code], for a non-nullish [i]. *)
Definition identifier_type_code (i : JSValue) : JSValue :=
  oget (oget0 (oget (oget i "type") "coding")) "code".

(** The milliseconds of a Julian year, the divisor of [age]. *)
Definition year_ms : Q := 31557600000.

(** Every series holds twenty points. *)
Definition twenty_points (v : Vitals) : Prop :=
  trend_lengths v = [ 20; 20; 20; 20 ]%nat.

(* ------------------------------------------------------------------ *)
(** ** Sample data for the example runs *)

(** The oracle of the example runs: draws alternating between the two ends
    of the unit interval. *)
Definition alternating (i : nat) : Q := if Nat.even i then 0 else 99 # 100.



(** A component [{ code: { coding: [{ code }] }, valueQuantity: { value } }]. *)
Definition coded_component (code : string) (value : Q) : JSValue :=
  JObject [ ("code", JObject [ ("coding", JArray [ JObject [ ("code", JString code) ] ]) ]);
            ("valueQuantity", JObject [ ("value", JNumber (Num value)) ]) ].

(** A blood-pressure panel Observation with the given components. *)
Definition bp_panel (comps : list JSValue) : JSValue :=
  JObject [ ("resourceType", JString "Observation");
            ("code", JObject [ ("coding", JArray [ JObject [ ("code", JString "85354-9") ] ]) ]);
            ("component", JArray comps) ].

(** A scalar Observation resource. *)
Definition scalar_observation (code : string) (value : Q) : JSValue :=
  JObject [ ("resourceType", JString "Observation");
            ("code", JObject [ ("coding", JArray [ JObject [ ("code", JString code) ] ]) ]);
            ("valueQuantity", JObject [ ("value", JNumber (Num value)) ]) ].

Definition bundle_of (resources : list JSValue) : JSValue :=
  JObject [ ("resourceType", JString "Bundle");
            ("entry", JArray (map (fun r => JObject [ ("resource", r) ]) resources)) ].

(** Body weight (29463-7), which the dashboard does not show, then a heart
    rate of 85. *)
Definition weight_then_hr85 : JSValue :=
  bundle_of [ scalar_observation "29463-7" 70; scalar_observation "8867-4" 85 ].

Definition patient_resource (id : string) (family : string) : JSValue :=
  JObject [ ("resourceType", JString "Patient");
            ("id", JString id);
            ("name", JArray [ JObject [ ("given", JArray [ JString "Ada" ]);
                                        ("family", JString family) ] ]);
            ("gender", JString "female");
            ("birthDate", JString "1980-02-29") ].

Definition sample_patient : PatientRecord :=
  {| pat_id := JString "p1";
     pat_name := JString "Ada Byron";
     pat_gender := JString "female";
     pat_birthDate := JString "1980-02-29";
     pat_mrn := JString "p1" |}.

Definition sample_trend (a b c : Q) : list TrendPoint :=
  [ {| pt_time := "00:00"; pt_value := JNumber (Num a) |};
    {| pt_time := "00:30"; pt_value := JNumber (Num b) |};
    {| pt_time := "01:00"; pt_value := JNumber (Num c) |} ].

(** The readings the dashboard starts from, over short series. *)
Definition sample_vitals : Vitals :=
  {| hr := {| ch_value := RNum (Num 72);
              ch_trend := sample_trend 70 75 72; ch_source := sim |};
     spo2 := {| ch_value := RNum (Num 98);
                ch_trend := sample_trend 97 98 99; ch_source := sim |};
     temp := {| ch_value := RNum (Num (372 # 10));
                ch_trend := sample_trend 37 (373 # 10) (372 # 10);
                ch_source := sim |};
     rr := {| ch_value := RNum (Num 16);
              ch_trend := sample_trend 15 17 16; ch_source := sim |};
     bp := {| sys := Num 118; dia := Num 76; bp_source := sim |} |}.

(** A dashboard showing a patient loaded earlier. *)
Definition sample_world : World :=
  ({| time := 1000%Z;
      patient := Some sample_patient;
      loading := false;
      fhirStatus := {| connected := true; lastSync := Some 900%Z |};
      vitals := sample_vitals |}, 0%nat).

(** An identifier [{ type: { coding: [{ code }] }, value }]. *)
Definition typed_identifier (code value : string) : JSValue :=
  JObject [ ("type", JObject [ ("coding", JArray [ JObject [ ("code", JString code) ] ]) ]);
            ("value", JString value) ].

(** A patient with a social security number and two record numbers. *)
Definition patient_with_identifiers : JSValue :=
  JObject [ ("resourceType", JString "Patient");
            ("id", JString "p7");
            ("name", JArray [ JObject [ ("given", JArray [ JString "Grace"; JString "B." ]);
                                        ("family", JString "Hopper") ] ]);
            ("identifier", JArray [ typed_identifier "SS" "078-05-1120";
                                    typed_identifier "MR" "12345";
                                    typed_identifier "MR" "67890" ]) ].

(** A heart-rate reading as [parseFhirObservation] returns it. *)
Definition hr_reading (value : Q) : ObservationRecord :=
  Scalar (JString "8867-4") JUndefined (JNumber (Num value)) (JString "") JUndefined.

(** A scalar Observation resource whose value is a text. *)
Definition text_observation (code text : string) : JSValue :=
  JObject [ ("resourceType", JString "Observation");
            ("code", JObject [ ("coding", JArray [ JObject [ ("code", JString code) ] ]) ]);
            ("valueQuantity", JObject [ ("value", JString text) ]) ].

(** A blood-pressure panel that also carries a quantity value. *)
Definition panel_with_quantity : JSValue :=
  JObject [ ("resourceType", JString "Observation");
            ("code", JObject [ ("coding", JArray [ JObject [ ("code", JString "85354-9") ] ]) ]);
            ("valueQuantity", JObject [ ("value", JNumber (Num 120)) ]);
            ("component", JArray [ coded_component "8480-6" 120;
                                   coded_component "8462-4" 80 ]) ].

(** The sample dashboard after a server reading of 85 for the oxygen
    saturation. *)
Definition low_spo2_world : World :=
  ({| time := 1000%Z;
      patient := Some sample_patient;
      loading := false;
      fhirStatus := {| connected := true; lastSync := Some 900%Z |};
      vitals := set_spo2 sample_vitals
                  {| ch_value := RNum (Num 85);
                     ch_trend := sample_trend 84 86 85;
                     ch_source := fhir |} |}, 0%nat).

(** [new Date('1970-01-01')]: the date whose time value is 0. *)
Definition date_of_epoch (v : JSValue) : completion number := Normal (Num 0).

(** [trim] on texts that neither start nor end with white space. *)
Definition trim_of_trimmed (s : string) : string := s.

(** A search box after an earlier search. *)
Definition sample_search : SearchState :=
  {| query := "Byron"; results := [ sample_patient ]; searching := false |}.

(** An entry of a bundle that has no [resource]. *)
Definition entry_without_resource : JSValue :=
  JObject [ ("fullUrl", JString "urn:uuid:0") ].

Definition entry_of (resource : JSValue) : JSValue :=
  JObject [ ("resource", resource) ].

(* ================================================================== *)
(** * Properties *)

Local Open Scope list_scope.

(** ** Numbers *)

Lemma num_le_Num (x y : Q) : num_le (Num x) (Num y) = true <-> x <= y.
Proof. apply Qle_bool_iff. Qed.

Lemma num_lt_Num (x y : Q) : num_lt (Num x) (Num y) = true <-> x < y.
Proof.
  simpl. rewrite negb_true_iff, <- not_true_iff_false, Qle_bool_iff.
  split; intro H; [apply Qnot_le_lt | apply Qlt_not_le]; exact H.
Qed.

Lemma num_mul_Num (x y : Q) : exists z, num_mul (Num x) (Num y) = Num z /\ z == x * y.
Proof. exists (Qred (x * y)). split; [reflexivity | apply Qred_correct]. Qed.

Lemma num_add_Num (x y : Q) : exists z, num_add (Num x) (Num y) = Num z /\ z == x + y.
Proof. exists (Qred (x + y)). split; [reflexivity | apply Qred_correct]. Qed.

Lemma num_sub_Num (x y : Q) : exists z, num_sub (Num x) (Num y) = Num z /\ z == x - y.
Proof. exists (Qred (x - y)). split; [reflexivity | apply Qred_correct]. Qed.

(** ** Rounding to binary64 *)






(** ** The classifier *)

Section Classifier.
Context {B : Builtins}.


Lemma getStatus_outside (value low high : Q) :
  ~ (low <= value /\ value <= high) ->
  getStatus (RNum (Num value)) (Num low) (Num high)
  = if num_lt (Num value) (Num (lower_margin low))
       || num_lt (Num (upper_margin high)) (Num value)
    then critical else warning.
Proof.
  intro H. unfold getStatus at 1. cbn [parseFloat].
  destruct (num_ge (Num value) (Num low) && num_le (Num value) (Num high)) eqn:E;
    [ | reflexivity ].
  exfalso; apply H. apply andb_true_iff in E. destruct E as [E1 E2].
  split; apply num_le_Num; assumption.
Qed.


(** A value that is not a number is in neither band and never critical. *)
Lemma getStatus_NaN (low high : number) :
  getStatus (RNum NaN) low high = warning.
Proof. destruct low, high; reflexivity. Qed.

End Classifier.

(** The margins of the four cards of the dashboard, whose bands are
    60 to 100, 95 to 100, 36.5 to 37.5 and 12 to 20. *)
Example margins_of_the_cards :
  lower_margin 60 = 54
  /\ upper_margin 100 = 7740561859543041 # 70368744177664
  /\ lower_margin 95 = 171 # 2
  /\ lower_margin (365 # 10) = 4623226492472525 # 140737488355328
  /\ upper_margin (375 # 10) = 165 # 4
  /\ lower_margin 12 = 3039929748475085 # 281474976710656
  /\ upper_margin 20 = 22.
Proof. vm_compute. repeat split. Qed.


(** C5, as the code has it. At the boundaries, [getStatus(60, 60, 100)] is
    [normal] and [getStatus(54, 60, 100)], whose value equals [0.9 * 60],
    is [warning]: the comparison with the critical margin is strict. *)
Theorem getStatus_boundaries :
  getStatus (B := decimal_builtins) (RNum (Num 60)) (Num 60) (Num 100) = normal
  /\ getStatus (B := decimal_builtins) (RNum (Num 54)) (Num 60) (Num 100) = warning.
Proof. split; vm_compute; reflexivity. Qed.

(** C5, as the claim words it, fails: the second classification is not
    [critical]. *)
Lemma getStatus_54_not_critical :
  ~ (getStatus (B := decimal_builtins) (RNum (Num 60)) (Num 60) (Num 100) = normal
     /\ getStatus (B := decimal_builtins) (RNum (Num 54)) (Num 60) (Num 100) = critical).
Proof. intros [_ H]. vm_compute in H. discriminate H. Qed.

(** ** The trend synthesiser *)

Section Trend.
Context {B : Builtins}.
Variable random : nat -> Q.

Lemma spread_eq (r w : Q) :
  exists q, spread r (Num w) = Num q /\ q == (r - (1 # 2)) * w.
Proof.
  exists (Qred (Qred (r - (5 # 10)) * w)). split; [ reflexivity | ].
  rewrite !Qred_correct. lra.
Qed.

Lemma js_add_numbers (x y : number) :
  js_add (JNumber x) (JNumber y) = Normal (JNumber (num_add x y)).
Proof. reflexivity. Qed.

Lemma trend_points_numeric (base : Q) (variance : number) (n i c : nat) :
  trend_points random (JNumber (Num base)) variance i n c
  = (Normal (map (fun k => numeric_point base variance (i + k) (random (c + k)))
                 (seq 0 n)),
     (c + n)%nat).
Proof.
  revert i c. induction n as [ | n IH ]; intros i c.
  - cbn. rewrite Nat.add_0_r. reflexivity.
  - cbn [trend_points]. unfold bind at 1. unfold Math_random at 1.
    unfold bind at 1. unfold lift at 1. rewrite js_add_numbers.
    unfold bind at 1. rewrite IH. unfold ret.
    rewrite <- Nat.add_succ_comm. f_equal. f_equal.
    cbn [seq map]. rewrite !Nat.add_0_r. unfold numeric_point at 2. f_equal.
    rewrite <- seq_shift, map_map.
    apply map_ext. intro k. rewrite <- !Nat.add_succ_comm. reflexivity.
Qed.

Lemma generateTrend_numeric (base : Q) (variance : number) (count c : nat) :
  generateTrend random (JNumber (Num base)) variance count c
  = (Normal (map (fun k => numeric_point base variance k (random (c + k)))
                 (seq 0 count)),
     (c + count)%nat).
Proof. unfold generateTrend. apply trend_points_numeric. Qed.

(** The value of a point lies within half the variance of the base line. *)
Lemma numeric_point_bounds (base w : Q) (i : nat) (r : Q) :
  0 <= r -> r < 1 -> 0 <= w ->
  exists q, pt_value (numeric_point base (Num w) i r) = JNumber (Num q)
            /\ base - w * (1 # 2) <= q /\ q <= base + w * (1 # 2).
Proof.
  intros Hr0 Hr1 Hw.
  destruct (spread_eq r w) as (s & Es & Hs).
  unfold numeric_point. cbn [pt_value]. rewrite Es.
  destruct (num_add_Num base s) as (q & Eq & Hq).
  exists q. split; [ rewrite Eq; reflexivity | ].
  assert (H1 : 0 <= r * w) by (apply Qmult_le_0_compat; assumption).
  assert (H2 : 0 <= (1 - r) * w)
    by (apply Qmult_le_0_compat; [ lra | assumption ]).
  rewrite Hq, Hs. split; lra.
Qed.

Lemma numeric_series_bounds (base w : Q) (n c : nat) :
  unit_draws random -> 0 <= w ->
  Forall (fun p => exists q, pt_value p = JNumber (Num q)
                             /\ base - w * (1 # 2) <= q /\ q <= base + w * (1 # 2))
         (map (fun k => numeric_point base (Num w) k (random (c + k))) (seq 0 n)).
Proof.
  intros Hdraws Hw. apply Forall_forall. intros p Hp.
  apply in_map_iff in Hp. destruct Hp as (k & <- & _).
  destruct (Hdraws (c + k)%nat) as [H0 H1].
  apply numeric_point_bounds; assumption.
Qed.

(** C9. Whatever [Math.random] draws in the unit interval,
    [generateTrend(72, 15, 20)] returns, in order, exactly 20 points;
    their labels are the half hours from 00:00 on, one per index, and
    every value lies in [[72 - 7.5, 72 + 7.5]]. *)
Theorem generateTrend_72_15_20 (c : nat) :
  unit_draws random ->
  exists points,
    generateTrend random (JNumber (Num 72)) (Num 15) 20 c
    = (Normal points, (c + 20)%nat)
    /\ List.length points = 20%nat
    /\ map pt_time points = half_hour_labels
    /\ Forall (fun p => exists q, pt_value p = JNumber (Num q)
                                  /\ 72 - (75 # 10) <= q /\ q <= 72 + (75 # 10))
              points.
Proof.
  intro Hdraws. rewrite generateTrend_numeric.
  eexists. split; [ reflexivity | ]. split; [ | split ].
  - rewrite length_map, length_seq. reflexivity.
  - rewrite map_map. reflexivity.
  - assert (H15 : 0 <= 15) by lra.
    eapply Forall_impl; [ | exact (numeric_series_bounds 72 15 20 c Hdraws H15) ].
    intros p (q & Eq & Hlo & Hhi). exists q. split; [ exact Eq | ]. split; lra.
Qed.

End Trend.

Lemma alternating_unit : unit_draws alternating.
Proof. intro i. unfold alternating. destruct (Nat.even i); split; lra. Qed.

(** C9 at the alternating draws. *)
Lemma generateTrend_72_15_20_run :
  unit_draws alternating
  /\ exists points,
       generateTrend (B := decimal_builtins) alternating
         (JNumber (Num 72)) (Num 15) 20 0%nat
       = (Normal points, 20%nat)
       /\ List.length points = 20%nat
       /\ map pt_time points = half_hour_labels
       /\ Forall (fun p => exists q, pt_value p = JNumber (Num q)
                                     /\ 72 - (75 # 10) <= q /\ q <= 72 + (75 # 10))
                 points.
Proof.
  split; [ exact alternating_unit | ].
  exact (generateTrend_72_15_20 alternating 0%nat alternating_unit).
Defined.

(** The dashboard starts from simulated channels seeded with the base
    lines 72, 98, 37.2, 16 and 118 over 76, each scalar channel with a
    series of 20 points. *)
Lemma initialVitals_seeded {B : Builtins} (random : nat -> Q) (c : nat) :
  exists v,
    initialVitals random c = (Normal v, (c + 80)%nat)
    /\ map ch_value [ hr v; spo2 v; temp v; rr v ]
       = [ RNum (Num 72); RNum (Num 98); RNum (Num (372 # 10)); RNum (Num 16) ]
    /\ bp v = {| sys := Num 118; dia := Num 76; bp_source := sim |}
    /\ map ch_source [ hr v; spo2 v; temp v; rr v ] = [ sim; sim; sim; sim ]
    /\ trend_lengths v = [ 20; 20; 20; 20 ]%nat.
Proof.
  unfold initialVitals, default_count, bind.
  rewrite !generateTrend_numeric. unfold ret.
  eexists. split.
  - rewrite <- !Nat.add_assoc. reflexivity.
  - unfold trend_lengths. cbn [hr spo2 temp rr bp ch_value ch_source ch_trend map].
    rewrite !length_map, !length_seq. repeat split.
Qed.

(** ** The resource parsers *)

Lemma strict_eq_string_true (v : JSValue) (lit : string) :
  strict_eq_string v lit = true <-> v = JString lit.
Proof.
  destruct v; cbn; try (split; [ discriminate | intro H; discriminate H ]).
  rewrite String.eqb_eq. split; [ intros -> | intros [= ->] ]; reflexivity.
Qed.

Lemma has_code_defined (lit : string) (c : JSValue) :
  nullish c = false ->
  has_code lit c = Normal (strict_eq_string (first_coding_code c) lit).
Proof. intro H. unfold has_code, get. rewrite H. reflexivity. Qed.

Lemma Array_find_has_code (lit : string) (comps : list JSValue) :
  Forall (fun c => nullish c = false) comps ->
  Array_find (has_code lit) comps
  = Normal (match component_coded lit comps with
            | Some c => c
            | None => JUndefined
            end).
Proof.
  induction 1 as [ | c comps Hc _ IH ]; [ reflexivity | ].
  cbn [Array_find component_coded List.find]. rewrite (has_code_defined _ _ Hc).
  cbn [cbind]. destruct (strict_eq_string (first_coding_code c) lit);
    [ reflexivity | exact IH ].
Qed.

Lemma component_coded_none (lit : string) (comps : list JSValue) :
  (forall c, In c comps -> first_coding_code c <> JString lit) ->
  component_coded lit comps = None.
Proof.
  intro H. unfold component_coded.
  destruct (List.find _ comps) as [ c | ] eqn:E; [ | reflexivity ].
  apply find_some in E. destruct E as [Hin Hc].
  apply strict_eq_string_true in Hc. elim (H c Hin Hc).
Qed.



Section ParserProperties.
Context {B : Builtins}.

Lemma parseFhirObservation_panel (obs : JSValue) (comps : list JSValue) :
  truthy (oget obs "valueQuantity") = false ->
  oget obs "component" = JArray comps ->
  Forall (fun c => nullish c = false) comps ->
  parseFhirObservation obs
  = Normal (Panel
              (first_coding_code obs)
              (js_or (oget (oget0 (oget (oget obs "code") "coding")) "display")
                     (oget (oget obs "code") "text"))
              (quantity_value (component_coded "8480-6" comps))
              (quantity_value (component_coded "8462-4" comps))
              (oget obs "effectiveDateTime")).
Proof.
  intros Hq Hc Hcomps.
  assert (Hobs : nullish obs = false)
    by (destruct obs; try reflexivity; discriminate Hc).
  unfold parseFhirObservation, get. rewrite Hobs. cbn [cbind].
  rewrite Hq, Hc. cbn [truthy call_find].
  rewrite !(Array_find_has_code _ _ Hcomps). cbn [cbind].
  unfold quantity_value.
  destruct (component_coded "8480-6" comps), (component_coded "8462-4" comps);
    reflexivity.
Qed.


End ParserProperties.

(** The panel 120 over 80, and the same panel without its diastolic
    component. *)
Example parseFhirObservation_120_80 :
  parseFhirObservation
    (bp_panel [ coded_component "8480-6" 120; coded_component "8462-4" 80 ])
  = Normal (Panel (JString "85354-9") JUndefined
              (JNumber (Num 120)) (JNumber (Num 80)) JUndefined).
Proof. reflexivity. Qed.

Example parseFhirObservation_diastolic_missing :
  parseFhirObservation
    (bp_panel [ coded_component "8480-6" 120 ])
  = Normal (Panel (JString "85354-9") JUndefined
              (JNumber (Num 120)) JUndefined JUndefined).
Proof. reflexivity. Qed.



Section PatientProperties.
Context {B : Builtins}.

(** C4, at a Patient resource that carries no [name]. The optional
    chain yields [undefined], and the concatenation that follows prints
    it: the display name is the text ["undefined "], where the family
    name, guarded by [|| ''], would have degraded to nothing. *)
Theorem parseFhirPatient_without_name :
  parseFhirPatient
    (JObject [ ("resourceType", JString "Patient");
               ("id", JString "p1");
               ("gender", JString "male");
               ("birthDate", JString "1990-01-01") ])
  = Normal {| pat_id := JString "p1";
              pat_name := JString "undefined ";
              pat_gender := JString "male";
              pat_birthDate := JString "1990-01-01";
              pat_mrn := JString "p1" |}.
Proof. reflexivity. Qed.

(** The same at every resource object with neither [name] nor
    [identifier]. *)
Lemma parseFhirPatient_no_name (o : list (string * JSValue)) :
  lookup "name" o = JUndefined ->
  lookup "identifier" o = JUndefined ->
  parseFhirPatient (JObject o)
  = Normal {| pat_id := lookup "id" o;
              pat_name := JString "undefined ";
              pat_gender := lookup "gender" o;
              pat_birthDate := lookup "birthDate" o;
              pat_mrn := js_or JUndefined (lookup "id" o) |}.
Proof.
  intros Hn Hi. unfold parseFhirPatient. cbn [get nullish oget cbind].
  rewrite Hn, Hi. reflexivity.
Qed.

(** Whenever the parse succeeds, [id], [gender] and [birthDate] are the
    resource's own properties, [undefined] when missing. *)
Lemma parseFhirPatient_plain_fields (resource : JSValue) (r : PatientRecord) :
  parseFhirPatient resource = Normal r ->
  pat_id r = oget resource "id"
  /\ pat_gender r = oget resource "gender"
  /\ pat_birthDate r = oget resource "birthDate".
Proof.
  unfold parseFhirPatient, get.
  destruct (nullish resource); [ discriminate | ]. cbn [cbind].
  repeat match goal with
         | |- cbind ?m _ = _ -> _ => destruct m; cbn [cbind]; [ | discriminate ]
         end.
  intros [= <-]. repeat split.
Qed.

Lemma join_strings (sep : string) (a : list JSValue) :
  Forall (fun x => is_string x = true) a -> exists s, join sep a = Normal s.
Proof.
  induction 1 as [ | x a Hx _ (s & IH) ]; [ exists ""; reflexivity | ].
  destruct x; try discriminate Hx. cbn [join nullish ToString cbind].
  destruct a; [ eexists; reflexivity | ].
  rewrite IH. eexists; reflexivity.
Qed.

Lemma Array_find_is_MR (a : list JSValue) :
  Forall (fun i => nullish i = false) a -> exists x, Array_find is_MR a = Normal x.
Proof.
  induction 1 as [ | i a Hi _ (x & IH) ]; [ exists JUndefined; reflexivity | ].
  cbn [Array_find]. unfold is_MR at 1, get. rewrite Hi. cbn [cbind].
  destruct (strict_eq_string _ "MR"); eexists; [ reflexivity | exact IH ].
Qed.

(** No exception on a resource of the shapes FHIR gives the fields: an
    object whose given names, when present, are an array of strings,
    whose family name, when present, is a string, and whose identifiers,
    when present, are an array of objects. *)
Lemma parseFhirPatient_total (o : list (string * JSValue)) :
  let name0 := oget0 (lookup "name" o) in
  (nullish (oget name0 "given") = true
   \/ exists a, oget name0 "given" = JArray a
                /\ Forall (fun x => is_string x = true) a) ->
  (nullish (oget name0 "family") = true \/ is_string (oget name0 "family") = true) ->
  (nullish (lookup "identifier" o) = true
   \/ exists a, lookup "identifier" o = JArray a
                /\ Forall (fun i => nullish i = false) a) ->
  exists r, parseFhirPatient (JObject o) = Normal r.
Proof.
  intros name0 Hgiven Hfamily Hident.
  unfold parseFhirPatient. cbn [get nullish oget cbind]. fold name0.
  assert (Hj : exists j, (if nullish (oget name0 "given") then Normal JUndefined
                          else match oget name0 "given" with
                               | JArray a => cbind (join " " a) (fun s => Normal (JString s))
                               | _ => Throw
                               end) = Normal j
                         /\ (j = JUndefined \/ is_string j = true)).
  { destruct Hgiven as [ -> | (a & -> & Ha) ].
    - exists JUndefined. split; [ reflexivity | left; reflexivity ].
    - cbn [nullish]. destruct (join_strings " " a Ha) as (s & ->).
      exists (JString s). split; [ reflexivity | right; reflexivity ]. }
  destruct Hj as (j & -> & Hj). cbn [cbind].
  assert (Hl : exists l, js_add j (JString " ") = Normal (JString l)).
  { destruct Hj as [ -> | Hj ]; [ eexists; reflexivity | ].
    destruct j; try discriminate Hj. eexists; reflexivity. }
  destruct Hl as (l & ->). cbn [cbind].
  assert (Hn : exists n, js_add (JString l) (js_or (oget name0 "family") (JString ""))
                         = Normal n).
  { unfold js_or.
    destruct Hfamily as [ Hf | Hf ]; destruct (oget name0 "family");
      try discriminate Hf; cbn [truthy]; try (eexists; reflexivity).
    destruct (negb (s =? "")%string); eexists; reflexivity. }
  destruct Hn as (n & ->). cbn [cbind].
  destruct Hident as [ -> | (a & -> & Ha) ].
  - eexists; reflexivity.
  - cbn [nullish call_find]. destruct (Array_find_is_MR a Ha) as (x & ->).
    eexists; reflexivity.
Qed.

End PatientProperties.

(** ** The FHIR merge *)

Lemma forEach_app {S A X : Type} (body : A -> X -> M S A) (l1 l2 : list X)
  (acc : A) (s : S) :
  forEach body (l1 ++ l2) acc s
  = match forEach body l1 acc s with
    | (Normal acc', s') => forEach body l2 acc' s'
    | (Throw, s') => (Throw, s')
    end.
Proof.
  revert acc s. induction l1 as [ | x l1 IH ]; intros acc s; [ reflexivity | ].
  rewrite <- app_comm_cons. cbn [forEach]. unfold bind.
  destruct (body acc x s) as [[acc' | ] s'].
  - apply IH.
  - reflexivity.
Qed.

(** An element on which the body does nothing can be dropped. *)
Lemma forEach_skip {S A X : Type} (body : A -> X -> M S A) (l1 l2 : list X)
  (x : X) (acc : A) (s : S) :
  (forall a t, body a x t = (Normal a, t)) ->
  forEach body (l1 ++ x :: l2) acc s = forEach body (l1 ++ l2) acc s.
Proof.
  intro Hx. rewrite !forEach_app.
  destruct (forEach body l1 acc s) as [[acc' | ] s']; [ | reflexivity ].
  cbn [forEach]. unfold bind. rewrite Hx. reflexivity.
Qed.

Lemma forEach_inert {S A X : Type} (body : A -> X -> M S A) (l : list X)
  (acc : A) (s : S) :
  (forall x, In x l -> forall a t, body a x t = (Normal a, t)) ->
  forEach body l acc s = (Normal acc, s).
Proof.
  induction l as [ | x l IH ]; intro H; [ reflexivity | ].
  cbn [forEach]. unfold bind. rewrite (H x (or_introl eq_refl)).
  apply IH. intros y Hy. apply H. right. exact Hy.
Qed.

Lemma truthy_zero_or_absent (v : JSValue) : zero_or_absent v -> truthy v = false.
Proof.
  intros [ -> | [ -> | (q & -> & Hq) ] ]; try reflexivity.
  cbn. apply Qeq_bool_iff in Hq. rewrite Hq. reflexivity.
Qed.

Lemma assoc_VITAL_CODES_none (code : string) :
  ~ In code [ "8867-4"; "2708-6"; "8310-5"; "9279-1"; "85354-9"; "8480-6"; "8462-4" ] ->
  assoc code VITAL_CODES = None.
Proof.
  intro H. cbn [assoc VITAL_CODES].
  repeat match goal with
         | |- context [String.eqb code ?k] =>
             destruct (String.eqb_spec code k) as [ -> | _ ];
             [ exfalso; apply H; cbn; tauto | ]
         end.
  reflexivity.
Qed.

Lemma loinc_shaped_not_inherited (code : string) :
  loinc_shaped code = true ->
  existsb (String.eqb code) Object_prototype_members = false.
Proof.
  intro H. apply not_true_iff_false. intro E.
  apply existsb_exists in E. destruct E as (k & Hin & Hk).
  apply String.eqb_eq in Hk. subst k.
  cbn in Hin.
  repeat (destruct Hin as [ <- | Hin ]; [ discriminate H | ]).
  exact Hin.
Qed.

Section MergeProperties.
Context {B : Builtins}.
Variable random : nat -> Q.

(** An observation no branch of the merge accepts leaves the snapshot
    and the cursor alone. *)
Lemma merge_obs_skipped (obs : ObservationRecord) (m : member) :
  vitalType_of obs = Normal m ->
  (is_channel m "hr" || is_channel m "spo2" || is_channel m "temp"
   || is_channel m "rr" = true -> truthy (obs_value obs) = false) ->
  (is_channel m "bp" = true -> truthy (obs_systolic obs) = false) ->
  forall (v : Vitals) (c : nat), merge_obs random v obs c = (Normal v, c).
Proof.
  intros Hm Hscalar Hbp v c. unfold merge_obs, bind at 1, lift at 1.
  rewrite Hm.
  destruct (is_channel m "hr"), (is_channel m "spo2"), (is_channel m "temp"),
    (is_channel m "rr"), (is_channel m "bp");
    cbn [andb orb] in *;
    try rewrite Hscalar by reflexivity; try rewrite Hbp by reflexivity;
    reflexivity.
Qed.

Lemma vitalType_of_string (obs : ObservationRecord) (code : string) :
  obs_code obs = JString code ->
  vitalType_of obs = Normal (VITAL_CODES_get code).
Proof. intro H. unfold vitalType_of. rewrite H. reflexivity. Qed.

Lemma unknown_code_no_channel (code : string) (lit : string) :
  assoc code VITAL_CODES = None -> is_channel (VITAL_CODES_get code) lit = false.
Proof.
  intro H. unfold VITAL_CODES_get. rewrite H.
  destruct (existsb _ _); reflexivity.
Qed.

(** C7. A LOINC code outside the seven of the table resolves to nothing,
    and an observation carrying a code outside the table is passed over
    by the merge: no error, the snapshot and every channel of it as
    before, whatever else the bundle holds. *)
Theorem unknown_code_ignored (code : string) :
  ~ In code [ "8867-4"; "2708-6"; "8310-5"; "9279-1"; "85354-9";
              "8480-6"; "8462-4" ] ->
  (loinc_shaped code = true -> VITAL_CODES_get code = Absent)
  /\ (forall (obs : ObservationRecord) (v : Vitals) (c : nat),
         obs_code obs = JString code ->
         merge_obs random v obs c = (Normal v, c))
  /\ (forall (obs : ObservationRecord) (before after : list ObservationRecord)
             (v : Vitals) (c : nat),
         obs_code obs = JString code ->
         merge random v (before ++ obs :: after) c
         = merge random v (before ++ after) c).
Proof.
  intro Hout. pose proof (assoc_VITAL_CODES_none code Hout) as Hnone.
  assert (Hskip : forall obs v c, obs_code obs = JString code ->
                                  merge_obs random v obs c = (Normal v, c)).
  { intros obs v c Hcode.
    apply (merge_obs_skipped obs _ (vitalType_of_string obs code Hcode));
      rewrite !(unknown_code_no_channel code _ Hnone); discriminate. }
  split; [ | split ].
  - intro Hshape. unfold VITAL_CODES_get. rewrite Hnone.
    rewrite (loinc_shaped_not_inherited code Hshape). reflexivity.
  - exact Hskip.
  - intros obs before after v c Hcode. unfold merge.
    apply forEach_skip. intros a t. apply Hskip. exact Hcode.
Qed.

(** C10. An observation whose code resolves to [hr], [spo2], [temp] or
    [rr] and whose value is zero or absent, and one whose code resolves
    to [bp] and whose systolic value is zero or absent, changes nothing:
    the update of a channel is gated on the truthiness of the value. *)
Theorem falsy_reading_ignored (obs : ObservationRecord) (channel : string) :
  vitalType_of obs = Normal (Own channel) ->
  (In channel [ "hr"; "spo2"; "temp"; "rr" ] /\ zero_or_absent (obs_value obs))
  \/ (channel = "bp" /\ zero_or_absent (obs_systolic obs)) ->
  (forall (v : Vitals) (c : nat), merge_obs random v obs c = (Normal v, c))
  /\ (forall (before after : list ObservationRecord) (v : Vitals) (c : nat),
         merge random v (before ++ obs :: after) c
         = merge random v (before ++ after) c).
Proof.
  intros Hm Hfalsy.
  assert (Hskip : forall v c, merge_obs random v obs c = (Normal v, c)).
  { apply (merge_obs_skipped obs _ Hm).
    - destruct Hfalsy as [ [_ Hz] | [-> _] ];
        [ intros _; apply truthy_zero_or_absent; exact Hz | discriminate ].
    - destruct Hfalsy as [ [Hin _] | [_ Hz] ];
        [ | intros _; apply truthy_zero_or_absent; exact Hz ].
      cbn in Hin. destruct Hin as [ <- | [ <- | [ <- | [ <- | [] ] ] ] ];
        discriminate. }
  split; [ exact Hskip | ].
  intros before after v c. unfold merge. apply forEach_skip.
  intros a t. apply Hskip.
Qed.

End MergeProperties.

Section LoadProperties.
Context {B : Builtins}.
Variable random : nat -> Q.

Lemma merge_obs_unrecognised (obs : ObservationRecord) :
  unrecognised obs ->
  forall (v : Vitals) (c : nat), merge_obs random v obs c = (Normal v, c).
Proof.
  intros (m & Hm & Hno). apply (merge_obs_skipped random obs m Hm).
  - rewrite !Hno by (cbn; tauto). discriminate.
  - rewrite Hno by (cbn; tauto). discriminate.
Qed.

(** A heart-rate reading that is a non-zero number replaces the channel. *)
Lemma merge_obs_hr (obs : ObservationRecord) (q : Q) (v : Vitals) (c : nat) :
  obs_code obs = JString "8867-4" ->
  obs_value obs = JNumber (Num q) ->
  ~ q == 0 ->
  merge_obs random v obs c
  = (Normal (set_hr v
               {| ch_value := RNum (Math_round (Num q));
                  ch_trend := map (fun k => numeric_point q (Num 15) k
                                              (random (c + k)))
                                  (seq 0 20);
                  ch_source := fhir |}),
     (c + 20)%nat).
Proof.
  intros Hcode Hvalue Hq.
  unfold merge_obs, bind at 1, lift at 1.
  rewrite (vitalType_of_string obs _ Hcode), Hvalue.
  assert (Ht : truthy (JNumber (Num q)) = true).
  { cbn. apply negb_true_iff, not_true_iff_false.
    intro E. apply Hq. apply Qeq_bool_iff. exact E. }
  rewrite Ht. cbn [VITAL_CODES_get assoc VITAL_CODES String.eqb Ascii.eqb
                     Bool.eqb is_channel andb].
  unfold bind at 1, lift at 1.
  cbn [Math_round_of ToNumber ToPrimitive cbind prim_to_number].
  unfold bind at 1. unfold default_count. rewrite generateTrend_numeric.
  reflexivity.
Qed.

Lemma merge_single_hr (before after : list ObservationRecord)
  (obs : ObservationRecord) (q : Q) (v : Vitals) (c : nat) :
  Forall unrecognised before ->
  Forall unrecognised after ->
  obs_code obs = JString "8867-4" ->
  obs_value obs = JNumber (Num q) ->
  ~ q == 0 ->
  merge random v (before ++ obs :: after) c
  = (Normal (set_hr v
               {| ch_value := RNum (Math_round (Num q));
                  ch_trend := map (fun k => numeric_point q (Num 15) k
                                              (random (c + k)))
                                  (seq 0 20);
                  ch_source := fhir |}),
     (c + 20)%nat).
Proof.
  intros Hb Ha Hcode Hvalue Hq. unfold merge.
  rewrite forEach_app, forEach_inert.
  - cbn [forEach]. unfold bind at 1.
    rewrite (merge_obs_hr obs q v c Hcode Hvalue Hq).
    apply forEach_inert. intros x Hx.
    apply merge_obs_unrecognised. revert x Hx. apply Forall_forall. exact Ha.
  - intros x Hx. apply merge_obs_unrecognised.
    revert x Hx. apply Forall_forall. exact Hb.
Qed.

(** A load whose two requests answer, whose resources parse and whose
    merge goes through. *)
Lemma loadPatient_success (w : World) (patData obsBundle : JSValue)
  (p : PatientRecord) (entries : list JSValue)
  (observations : list ObservationRecord) (v' : Vitals) (c' : nat) (now : Date) :
  parseFhirPatient patData = Normal p ->
  oget obsBundle "entry" = JArray entries ->
  Array_map parse_entry entries = Normal observations ->
  merge random (vitals (fst w)) observations (snd w) = (Normal v', c') ->
  loadPatient random (Resolved patData) (Resolved obsBundle) now w
  = ({| time := time (fst w);
        patient := Some p;
        loading := false;
        fhirStatus := {| connected := true; lastSync := Some now |};
        vitals := v' |}, c').
Proof.
  intros Hp He Hobs Hm.
  assert (Hn : nullish obsBundle = false)
    by (destruct obsBundle; try reflexivity; discriminate He).
  unfold loadPatient, loadPatient_try, try_catch, bind, await, ret, lift,
    setLoading, setPatient, setVitals, setFhirStatus, on_cursor, get.
  cbn [fst snd]. rewrite Hp. cbn [fst snd]. rewrite Hn. cbn [fst snd].
  rewrite He. cbn [truthy call_map fst snd]. rewrite Hobs. cbn [fst snd].
  rewrite Hm. reflexivity.
Qed.

(** C2. A load whose bundle holds, among observations the merge does not
    recognise, exactly one recognised one, a heart-rate reading (LOINC
    8867-4) of 85: the [hr] channel shows 85 with provenance [fhir], its
    trend is the series [generateTrend(85, 15)] draws (20 points, each
    within 7.5 of 85), and [spo2], [temp], [rr] and [bp] are the channels
    of the snapshot before. *)
Theorem loadPatient_heart_rate_85 (w : World) (patData obsBundle : JSValue)
  (entries : list JSValue) (before after : list ObservationRecord)
  (reading85 : ObservationRecord) (now : Date) :
  (exists p, parseFhirPatient patData = Normal p) ->
  oget obsBundle "entry" = JArray entries ->
  Array_map parse_entry entries = Normal (before ++ reading85 :: after) ->
  obs_code reading85 = JString "8867-4" ->
  obs_value reading85 = JNumber (Num 85) ->
  Forall unrecognised before ->
  Forall unrecognised after ->
  let w' := loadPatient random (Resolved patData) (Resolved obsBundle) now w in
  ch_value (hr (vitals (fst w'))) = RNum (Num 85)
  /\ ch_source (hr (vitals (fst w'))) = fhir
  /\ generateTrend random (JNumber (Num 85)) (Num 15) 20 (snd w)
     = (Normal (ch_trend (hr (vitals (fst w')))), snd w')
  /\ List.length (ch_trend (hr (vitals (fst w')))) = 20%nat
  /\ (unit_draws random ->
      Forall (fun p => exists q, pt_value p = JNumber (Num q)
                                 /\ 85 - (75 # 10) <= q /\ q <= 85 + (75 # 10))
             (ch_trend (hr (vitals (fst w')))))
  /\ spo2 (vitals (fst w')) = spo2 (vitals (fst w))
  /\ temp (vitals (fst w')) = temp (vitals (fst w))
  /\ rr (vitals (fst w')) = rr (vitals (fst w))
  /\ bp (vitals (fst w')) = bp (vitals (fst w)).
Proof.
  intros (p & Hp) He Hobs Hcode Hvalue Hb Ha w'. subst w'.
  assert (H85 : ~ 85 == 0) by discriminate.
  rewrite (loadPatient_success w patData obsBundle p entries _ _ _ now Hp He Hobs
             (merge_single_hr before after reading85 85 _ _ Hb Ha Hcode Hvalue H85)).
  cbn [fst snd vitals hr spo2 temp rr bp set_hr ch_value ch_source ch_trend].
  rewrite generateTrend_numeric.
  split; [ reflexivity | ]. split; [ reflexivity | ]. split; [ reflexivity | ].
  split; [ rewrite length_map, length_seq; reflexivity | ].
  split; [ | repeat split ].
  intro Hdraws. assert (H15 : 0 <= 15) by lra.
  eapply Forall_impl;
    [ | exact (numeric_series_bounds random 85 15 20 (snd w) Hdraws H15) ].
  intros pt (q & Eq & Hlo & Hhi). exists q. split; [ exact Eq | ]. split; lra.
Qed.

End LoadProperties.

(** ** A failed load *)

Section FailureProperties.
Context {B : Builtins}.
Variable random : nat -> Q.

Ltac run_load :=
  unfold load_fails, loadPatient, loadPatient_try, try_catch, bind, await,
    ret, lift, throw, setLoading, setPatient, setVitals, setFhirStatus,
    on_cursor, get;
  cbn [fst snd].

Ltac split_load patRes obsRes w :=
  destruct patRes as [ | patData ]; cbn [fst snd];
  [ | destruct (parseFhirPatient patData) as [ p | ] eqn:Ep; cbn [fst snd];
      [ destruct obsRes as [ | obsBundle ]; cbn [fst snd];
        [ | destruct (nullish obsBundle); cbn [fst snd];
            [ | destruct (truthy (oget obsBundle "entry")); cbn [fst snd];
                [ destruct (call_map (oget obsBundle "entry") parse_entry)
                    as [ observations | ]; cbn [fst snd];
                  [ destruct (merge random (vitals (fst w)) observations (snd w))
                      as [[ v' | ] c']; cbn [fst snd] | ] | ] ] ] | ] ].

(** The load fails exactly when it leaves the dashboard disconnected. *)
Lemma load_fails_iff (w : World) (patRes obsRes : Response) (now : Date) :
  load_fails random w patRes obsRes now
  <-> connected (fhirStatus (fst (loadPatient random patRes obsRes now w))) = false.
Proof.
  run_load. split_load patRes obsRes w;
    split; intro H; try reflexivity; try discriminate H.
Qed.

(** C3, as the code has it. A load that ends in failure leaves the
    vitals snapshot (and the clock and the loading flag's resting value)
    as they were and sets the status to disconnected, its last
    synchronisation cleared.  The patient shown is the one from before
    when the patient request or the patient parse failed; once the
    patient was parsed, it is the new patient, whatever failed later. *)
Theorem loadPatient_failure (w : World) (patRes obsRes : Response) (now : Date) :
  load_fails random w patRes obsRes now ->
  let w' := loadPatient random patRes obsRes now w in
  vitals (fst w') = vitals (fst w)
  /\ fhirStatus (fst w') = disconnected
  /\ time (fst w') = time (fst w)
  /\ loading (fst w') = false
  /\ (patRes = Rejected
      \/ (exists patData, patRes = Resolved patData
                          /\ parseFhirPatient patData = Throw) ->
      patient (fst w') = patient (fst w))
  /\ (forall patData p,
         patRes = Resolved patData -> parseFhirPatient patData = Normal p ->
         patient (fst w') = Some p).
Proof.
  run_load. split_load patRes obsRes w; intro H; try discriminate H;
    repeat split; try reflexivity;
    try (intros [ E | (d & E & E') ]; try discriminate E;
         injection E as <-; congruence);
    try (intros d q E E'; try discriminate E; injection E as <-;
         rewrite Ep in E'; try discriminate E'; injection E' as <-;
         reflexivity).
Qed.

End FailureProperties.

(** ** The drift tick *)

Lemma spread_bounds (r w : Q) :
  0 <= r -> r < 1 -> 0 <= w ->
  exists d, spread r (Num w) = Num d /\ - (w * (1 # 2)) <= d /\ d <= w * (1 # 2).
Proof.
  intros H0 H1 Hw. destruct (spread_eq r w) as (d & E & Hd).
  exists d. split; [ exact E | ].
  assert (Ha : 0 <= r * w) by (apply Qmult_le_0_compat; assumption).
  assert (Hb : 0 <= (1 - r) * w) by (apply Qmult_le_0_compat; [ lra | assumption ]).
  rewrite Hd. split; lra.
Qed.



Lemma nudge_within (q r w : Q) :
  0 <= r -> r < 1 -> 0 <= w ->
  within (w * (1 # 2)) (Num q) (num_add (Num q) (spread r (Num w))).
Proof.
  intros H0 H1 Hw. destruct (spread_bounds r w H0 H1 Hw) as (d & -> & Hlo & Hhi).
  destruct (num_add_Num q d) as (s & -> & Hs).
  exists q, s. repeat split; lra.
Qed.


Lemma advance_length (t : list TrendPoint) (value : number) :
  t <> [] -> List.length (advance t value) = List.length t.
Proof.
  intro H. destruct t as [ | p t ]; [ contradiction | ].
  unfold advance, slice1. cbn [tl]. rewrite length_app. cbn. lia.
Qed.

Section TickProperties.
Context {B : Builtins}.
Variable random : nat -> Q.

Lemma tick_unfold (now : Date) (w : World) :
  tick random now w
  = ({| time := now;
        patient := patient (fst w);
        loading := loading (fst w);
        fhirStatus := fhirStatus (fst w);
        vitals := fst (drift random (vitals (fst w)) (snd w)) |},
     (snd w + 10)%nat).
Proof. reflexivity. Qed.

Lemma tick_trend_lengths (now : Date) (w : World) :
  ~ In 0%nat (trend_lengths (vitals (fst w))) ->
  trend_lengths (vitals (fst (tick random now w)))
  = trend_lengths (vitals (fst w)).
Proof.
  intro H. rewrite tick_unfold. unfold trend_lengths in *.
  cbn [fst vitals drift hr spo2 temp rr map ch_trend] in *.
  rewrite !advance_length; [ reflexivity | | | | ];
    intro E; apply H; rewrite E; cbn; tauto.
Qed.


End TickProperties.

Section TickTheorem.
Context {B : Builtins}.
Variable random : nat -> Q.


End TickTheorem.

(** ** Example runs *)

(** The sample patient is what its resource parses to. *)
Example parseFhirPatient_sample :
  parseFhirPatient (B := decimal_builtins) (patient_resource "p1" "Byron")
  = Normal sample_patient.
Proof. reflexivity. Qed.

(** A Patient resource of the usual shape parses. *)
Lemma parseFhirPatient_total_run :
  exists r, parseFhirPatient (B := decimal_builtins) (patient_resource "p1" "Byron")
            = Normal r.
Proof.
  apply (parseFhirPatient_total (B := decimal_builtins)).
  - right. eexists. split; [ reflexivity | repeat constructor ].
  - right. reflexivity.
  - left. reflexivity.
Defined.

(** C7 at a body-weight observation (LOINC 29463-7). *)
Lemma unknown_code_ignored_run :
  ~ In "29463-7" [ "8867-4"; "2708-6"; "8310-5"; "9279-1"; "85354-9";
                   "8480-6"; "8462-4" ]
  /\ VITAL_CODES_get "29463-7" = Absent
  /\ merge_obs (B := decimal_builtins) alternating sample_vitals
       (Scalar (JString "29463-7") JUndefined (JNumber (Num 70)) (JString "kg")
          JUndefined) 0%nat
     = (Normal sample_vitals, 0%nat).
Proof.
  assert (H : ~ In "29463-7" [ "8867-4"; "2708-6"; "8310-5"; "9279-1"; "85354-9";
                               "8480-6"; "8462-4" ])
    by (cbn; intuition discriminate).
  destruct (unknown_code_ignored (B := decimal_builtins) alternating "29463-7" H)
    as (H1 & H2 & _).
  split; [ exact H | split; [ apply H1; reflexivity | apply H2; reflexivity ] ].
Defined.

(** C10 at a heart-rate observation whose value is 0. *)
Lemma falsy_reading_ignored_run :
  let obs := Scalar (JString "8867-4") JUndefined (JNumber (Num 0)) (JString "")
               JUndefined in
  vitalType_of (B := decimal_builtins) obs = Normal (Own "hr")
  /\ ((In "hr" [ "hr"; "spo2"; "temp"; "rr" ] /\ zero_or_absent (obs_value obs))
      \/ ("hr" = "bp" /\ zero_or_absent (obs_systolic obs)))
  /\ merge_obs (B := decimal_builtins) alternating sample_vitals obs 0%nat
     = (Normal sample_vitals, 0%nat).
Proof.
  intro obs.
  assert (H1 : vitalType_of (B := decimal_builtins) obs = Normal (Own "hr"))
    by reflexivity.
  assert (H2 : (In "hr" [ "hr"; "spo2"; "temp"; "rr" ] /\ zero_or_absent (obs_value obs))
               \/ ("hr" = "bp" /\ zero_or_absent (obs_systolic obs))).
  { left. split; [ left; reflexivity | ].
    right; right. exists 0. split; reflexivity. }
  split; [ exact H1 | split; [ exact H2 | ] ].
  apply (proj1 (falsy_reading_ignored (B := decimal_builtins) alternating obs "hr" H1 H2)).
Defined.

(** C2 at a bundle of a body weight and a heart rate of 85, loaded over
    the sample dashboard. *)
Lemma loadPatient_heart_rate_85_run :
  let w' := loadPatient (B := decimal_builtins) alternating
              (Resolved (patient_resource "p2" "Lovelace"))
              (Resolved weight_then_hr85) 2000%Z sample_world in
  ch_value (hr (vitals (fst w'))) = RNum (Num 85)
  /\ ch_source (hr (vitals (fst w'))) = fhir
  /\ generateTrend (B := decimal_builtins) alternating (JNumber (Num 85)) (Num 15) 20
       (snd sample_world)
     = (Normal (ch_trend (hr (vitals (fst w')))), snd w')
  /\ List.length (ch_trend (hr (vitals (fst w')))) = 20%nat
  /\ (unit_draws alternating ->
      Forall (fun p => exists q, pt_value p = JNumber (Num q)
                                 /\ 85 - (75 # 10) <= q /\ q <= 85 + (75 # 10))
             (ch_trend (hr (vitals (fst w')))))
  /\ spo2 (vitals (fst w')) = spo2 (vitals (fst sample_world))
  /\ temp (vitals (fst w')) = temp (vitals (fst sample_world))
  /\ rr (vitals (fst w')) = rr (vitals (fst sample_world))
  /\ bp (vitals (fst w')) = bp (vitals (fst sample_world)).
Proof.
  apply (loadPatient_heart_rate_85 (B := decimal_builtins) alternating sample_world
           (patient_resource "p2" "Lovelace") weight_then_hr85
           [ JObject [ ("resource", scalar_observation "29463-7" 70) ];
             JObject [ ("resource", scalar_observation "8867-4" 85) ] ]
           [ Scalar (JString "29463-7") JUndefined (JNumber (Num 70)) (JString "")
               JUndefined ]
           []
           (Scalar (JString "8867-4") JUndefined (JNumber (Num 85)) (JString "")
              JUndefined)
           2000%Z).
  - eexists. reflexivity.
  - reflexivity.
  - reflexivity.
  - reflexivity.
  - reflexivity.
  - constructor; [ | constructor ].
    exists Absent. split; [ reflexivity | ].
    intros lit _. reflexivity.
  - constructor.
Defined.

(** C3, as the code has it, at a load whose observation request is
    rejected. *)
Lemma loadPatient_failure_run :
  load_fails (B := decimal_builtins) alternating sample_world
    (Resolved (patient_resource "p2" "Lovelace")) Rejected 2000%Z
  /\ (let w' := loadPatient (B := decimal_builtins) alternating
                  (Resolved (patient_resource "p2" "Lovelace")) Rejected 2000%Z
                  sample_world in
      vitals (fst w') = sample_vitals
      /\ fhirStatus (fst w') = disconnected
      /\ loading (fst w') = false).
Proof.
  assert (H : load_fails (B := decimal_builtins) alternating sample_world
                (Resolved (patient_resource "p2" "Lovelace")) Rejected 2000%Z)
    by reflexivity.
  split; [ exact H | ].
  destruct (loadPatient_failure (B := decimal_builtins) alternating sample_world
              (Resolved (patient_resource "p2" "Lovelace")) Rejected 2000%Z H)
    as (Hv & Hs & _ & Hl & _).
  split; [ exact Hv | split; [ exact Hs | exact Hl ] ].
Defined.

(** C3, as the claim words it, fails. The patient request answers and the
    observation request is rejected: the load ends in failure, and the
    patient shown is no longer the one from before the load. *)
Lemma loadPatient_failure_replaces_patient :
  load_fails (B := decimal_builtins) alternating sample_world
    (Resolved (patient_resource "p2" "Lovelace")) Rejected 2000%Z
  /\ patient (fst (loadPatient (B := decimal_builtins) alternating
                     (Resolved (patient_resource "p2" "Lovelace")) Rejected 2000%Z
                     sample_world))
     <> patient (fst sample_world).
Proof. split; [ reflexivity | ]. vm_compute. intro E. discriminate E. Qed.


(** One tick of the sample dashboard at the alternating draws. *)
Example tick_sample :
  let v := vitals (fst (tick (B := decimal_builtins) alternating 2000%Z sample_world)) in
  ch_value (hr v) = RNum (Num 70)
  /\ map pt_value (ch_trend (hr v))
     = [ JNumber (Num 75); JNumber (Num 72); JNumber (Num (1489 # 20)) ]
  /\ ch_value (spo2 v) = RNum (Num 97)
  /\ sys (bp v) = Num 116 /\ dia (bp v) = Num 77.
Proof. vm_compute. repeat split. Qed.

(** The boundary of C5 in binary64, where [0.9] is the nearest double
    [0x1.ccccccccccccdp-1]: the product [60 * 0.9] rounds to [54], so [54]
    is not below the margin there either. *)
Module Binary64.
Import PrimFloat.

Remark boundary_54 :
  PrimFloat.eqb (PrimFloat.mul 60 0x1.ccccccccccccdp-1) 54 = true
  /\ PrimFloat.ltb 54 (PrimFloat.mul 60 0x1.ccccccccccccdp-1) = false.
Proof. split; reflexivity. Qed.

(** The rounding of the model against the binary64 arithmetic of the
    kernel: the two literals of the classifier, ... *)
Remark literals_agree :
  float_value 0x1.ccccccccccccdp-1%float = Some (binary64 (9 # 10))
  /\ float_value 0x1.199999999999ap+0%float = Some (binary64 (11 # 10)).
Proof. split; vm_compute; reflexivity. Qed.

(** ... the margins of the four cards, ... *)
Remark margins_agree :
  float_value (mul 60 0x1.ccccccccccccdp-1) = Some (lower_margin 60)
  /\ float_value (mul 100 0x1.199999999999ap+0) = Some (upper_margin 100)
  /\ float_value (mul 95 0x1.ccccccccccccdp-1) = Some (lower_margin 95)
  /\ float_value (mul 36.5 0x1.ccccccccccccdp-1) = Some (lower_margin (365 # 10))
  /\ float_value (mul 37.5 0x1.199999999999ap+0) = Some (upper_margin (375 # 10))
  /\ float_value (mul 12 0x1.ccccccccccccdp-1) = Some (lower_margin 12)
  /\ float_value (mul 20 0x1.199999999999ap+0) = Some (upper_margin 20).
Proof. repeat split; vm_compute; reflexivity. Qed.

(** ... and quotients that are not binary64 numbers, of either sign, in
    the normal and in the subnormal range. *)
Remark quotients_agree :
  float_value (div 1 3) = Some (binary64 (1 # 3))
  /\ float_value (div (-7) 3) = Some (binary64 (-7 # 3))
  /\ float_value (div 0x1p-1070 3) = Some (binary64 (2 ^ (-1070) / 3))
  /\ float_value (div 0x1p+1000 7) = Some (binary64 (2 ^ 1000 / 7)).
Proof. repeat split; vm_compute; reflexivity. Qed.
End Binary64.

(* ================================================================== *)
(** * Further properties of the parsers *)

Lemma is_MR_result (i : JSValue) (b : bool) :
  is_MR i = Normal b ->
  b = strict_eq_string (identifier_type_code i) "MR".
Proof.
  unfold is_MR, get. destruct (nullish i); [ discriminate | ].
  cbn [cbind]. intros [= <-]. reflexivity.
Qed.

(** A search that did not throw found the first identifier typed MR. *)
Lemma Array_find_is_MR_result (ids : list JSValue) (x : JSValue) :
  Array_find is_MR ids = Normal x ->
  (forall pre i post,
      ids = pre ++ i :: post ->
      (forall y, In y pre -> identifier_type_code y <> JString "MR") ->
      identifier_type_code i = JString "MR" ->
      x = i)
  /\ ((forall i, In i ids -> identifier_type_code i <> JString "MR") ->
      x = JUndefined).
Proof.
  revert x. induction ids as [ | a ids IH ]; intros x H.
  - cbn in H. injection H as <-. split; [ | reflexivity ].
    intros [ | ? ? ] i post E; discriminate E.
  - cbn [Array_find] in H. destruct (is_MR a) as [ b | ] eqn:Ea; [ | discriminate H ].
    apply is_MR_result in Ea. cbn [cbind] in H. destruct b.
    + injection H as <-. symmetry in Ea. apply strict_eq_string_true in Ea.
      split.
      * intros [ | y pre ] i post E Hpre Hi.
        -- injection E as <- _. reflexivity.
        -- injection E as <- _. elim (Hpre a (or_introl eq_refl) Ea).
      * intro Hno. elim (Hno a (or_introl eq_refl) Ea).
    + destruct (IH x H) as [IH1 IH2]. split.
      * intros [ | y pre ] i post E Hpre Hi.
        -- injection E as <- _. apply strict_eq_string_true in Hi.
           rewrite Hi in Ea. discriminate Ea.
        -- injection E as _ E. apply (IH1 pre i post E); [ | exact Hi ].
           intros z Hz. apply Hpre. right. exact Hz.
      * intro Hno. apply IH2. intros i Hi. apply Hno. right. exact Hi.
Qed.

Lemma string_app_assoc (a b c : string) :
  ((a ++ b) ++ c)%string = (a ++ b ++ c)%string.
Proof. induction a as [ | x a IH ]; cbn; [ | rewrite IH ]; reflexivity. Qed.

Lemma string_app_nil_r (a : string) : (a ++ "")%string = a.
Proof. induction a as [ | x a IH ]; cbn; [ | rewrite IH ]; reflexivity. Qed.

Lemma join_texts {B : Builtins} (sep : string) (texts : list string) :
  join sep (map JString texts) = Normal (String.concat sep texts).
Proof.
  induction texts as [ | t texts IH ]; [ reflexivity | ].
  cbn [map join nullish ToString cbind String.concat].
  destruct texts as [ | u texts ]; [ reflexivity | ].
  cbn [map] in *. rewrite IH. reflexivity.
Qed.

Section MoreParserProperties.
Context {B : Builtins}.

(** The medical record number of a parsed patient is the value of the
    first identifier whose type's first coding has code MR; it is the id
    when that value is missing or falsy, when no identifier is typed MR,
    and when the resource has no identifiers. *)
Theorem parseFhirPatient_mrn (resource : JSValue) (r : PatientRecord) :
  parseFhirPatient resource = Normal r ->
  (nullish (oget resource "identifier") = true -> pat_mrn r = pat_id r)
  /\ (forall ids pre i post,
         oget resource "identifier" = JArray ids ->
         ids = pre ++ i :: post ->
         (forall y, In y pre -> identifier_type_code y <> JString "MR") ->
         identifier_type_code i = JString "MR" ->
         pat_mrn r = js_or (oget i "value") (pat_id r))
  /\ (forall ids,
         oget resource "identifier" = JArray ids ->
         (forall i, In i ids -> identifier_type_code i <> JString "MR") ->
         pat_mrn r = pat_id r).
Proof.
  unfold parseFhirPatient, get.
  destruct (nullish resource); [ discriminate | ]. cbn [cbind].
  match goal with |- cbind ?m _ = _ -> _ => destruct m; cbn [cbind]; [ | discriminate ] end.
  match goal with |- cbind ?m _ = _ -> _ => destruct m; cbn [cbind]; [ | discriminate ] end.
  match goal with |- cbind ?m _ = _ -> _ => destruct m; cbn [cbind]; [ | discriminate ] end.
  destruct (nullish (oget resource "identifier")) eqn:En; cbn [cbind].
  - intros [= <-]. cbn [pat_mrn pat_id]. split; [ reflexivity | ].
    split.
    + intros ids pre i post E. rewrite E in En. discriminate En.
    + intros ids E. rewrite E in En. discriminate En.
  - destruct (call_find (oget resource "identifier") is_MR) as [ found | ] eqn:Ef;
      cbn [cbind]; [ | discriminate ].
    intros [= <-]. cbn [pat_mrn pat_id]. split; [ discriminate | ].
    split.
    + intros ids pre i post E Hids Hpre Hi. rewrite E in Ef. cbn [call_find] in Ef.
      destruct (Array_find_is_MR_result ids found Ef) as [H1 _].
      rewrite (H1 pre i post Hids Hpre Hi). reflexivity.
    + intros ids E Hno. rewrite E in Ef. cbn [call_find] in Ef.
      destruct (Array_find_is_MR_result ids found Ef) as [_ H2].
      rewrite (H2 Hno). reflexivity.
Qed.

(** The display name of a parsed patient whose given names are strings is
    the given names separated by spaces, a space, and the family name; a
    missing family name leaves the name ending in that space. *)
Theorem parseFhirPatient_name (resource : JSValue) (givens : list string)
  (r : PatientRecord) :
  parseFhirPatient resource = Normal r ->
  oget (oget0 (oget resource "name")) "given" = JArray (map JString givens) ->
  (forall family,
      oget (oget0 (oget resource "name")) "family" = JString family ->
      pat_name r = JString (String.concat " " givens ++ " " ++ family)%string)
  /\ (nullish (oget (oget0 (oget resource "name")) "family") = true ->
      pat_name r = JString (String.concat " " givens ++ " ")%string).
Proof.
  unfold parseFhirPatient, get.
  destruct (nullish resource); [ discriminate | ]. cbn [cbind].
  intros H Hg. rewrite Hg in H. cbn [nullish] in H. rewrite join_texts in H.
  cbn [cbind] in H.
  change (js_add (JString (String.concat " " givens)) (JString " "))
    with (Normal (JString (String.concat " " givens ++ " ")%string)) in H.
  cbn [cbind] in H. split.
  - intros family Hf. rewrite Hf in H. unfold js_or in H. cbn [truthy] in H.
    destruct (negb (family =? "")%string) eqn:E.
    + change (js_add (JString (String.concat " " givens ++ " ")%string)
                (JString family))
        with (Normal (JString ((String.concat " " givens ++ " ")
                               ++ family)%string)) in H.
      cbn [cbind] in H.
      match type of H with cbind ?m _ = _ => destruct m; cbn [cbind] in H;
        [ | discriminate H ] end.
      injection H as <-. cbn [pat_name]. rewrite string_app_assoc. reflexivity.
    + apply negb_false_iff, String.eqb_eq in E. subst family.
      change (js_add (JString (String.concat " " givens ++ " ")%string) (JString ""))
        with (Normal (JString ((String.concat " " givens ++ " ") ++ "")%string)) in H.
      cbn [cbind] in H.
      match type of H with cbind ?m _ = _ => destruct m; cbn [cbind] in H;
        [ | discriminate H ] end.
      injection H as <-. cbn [pat_name]. rewrite string_app_assoc. reflexivity.
  - intro Hn. unfold js_or in H.
    destruct (oget (oget0 (oget resource "name")) "family"); try discriminate Hn;
      cbn [truthy] in H;
      change (js_add (JString (String.concat " " givens ++ " ")%string) (JString ""))
        with (Normal (JString ((String.concat " " givens ++ " ") ++ "")%string)) in H;
      cbn [cbind] in H;
      (match type of H with cbind ?m _ = _ => destruct m; cbn [cbind] in H;
        [ | discriminate H ] end);
      injection H as <-; cbn [pat_name]; rewrite string_app_nil_r; reflexivity.
Qed.

End MoreParserProperties.

(* ================================================================== *)
(** * Further properties of the merge *)

Lemma forEach_preserves {S A X : Type} (P : A -> Prop) (body : A -> X -> M S A)
  (l : list X) :
  (forall a x s a' s', body a x s = (Normal a', s') -> P a -> P a') ->
  forall acc s acc' s',
    forEach body l acc s = (Normal acc', s') -> P acc -> P acc'.
Proof.
  intro Hbody. induction l as [ | x l IH ]; intros acc s acc' s' H HP.
  - cbn in H. injection H as <- _. exact HP.
  - cbn [forEach] in H. unfold bind in H.
    destruct (body acc x s) as [[a1 | ] s1] eqn:E; [ | discriminate H ].
    apply (IH a1 s1 acc' s' H). exact (Hbody acc x s a1 s1 E HP).
Qed.

Section MoreMergeProperties.
Context {B : Builtins}.
Variable random : nat -> Q.

(** A series that was generated has the length asked for. *)
Lemma trend_points_length (base : JSValue) (variance : number) (n i c : nat)
  (points : list TrendPoint) (c' : nat) :
  trend_points random base variance i n c = (Normal points, c') ->
  List.length points = n.
Proof.
  revert i c points c'. induction n as [ | n IH ]; intros i c points c' H.
  - cbn in H. injection H as <- _. reflexivity.
  - cbn [trend_points] in H. unfold bind at 1, Math_random at 1 in H.
    unfold bind at 1, lift at 1 in H.
    destruct (js_add base _) as [ x | ]; [ | discriminate H ].
    unfold bind at 1 in H.
    destruct (trend_points random base variance (S i) n (S c)) as [[rest | ] c1] eqn:E;
      [ | discriminate H ].
    unfold ret in H. injection H as <- _. cbn. f_equal. exact (IH _ _ _ _ E).
Qed.

(** What a step of the merge that did not throw has done: nothing, or it
    has replaced the one channel the code resolves to, by a server-sourced
    channel with a series of twenty points. *)
Lemma merge_obs_result (obs : ObservationRecord) (m : member)
  (v v' : Vitals) (c c' : nat) :
  vitalType_of obs = Normal m ->
  merge_obs random v obs c = (Normal v', c') ->
  v' = v
  \/ (exists ch, List.length (ch_trend ch) = 20%nat /\ ch_source ch = fhir
                 /\ ((is_channel m "hr" = true /\ v' = set_hr v ch)
                     \/ (is_channel m "spo2" = true /\ v' = set_spo2 v ch)
                     \/ (is_channel m "temp" = true /\ v' = set_temp v ch)
                     \/ (is_channel m "rr" = true /\ v' = set_rr v ch)))
  \/ (exists b, bp_source b = fhir /\ is_channel m "bp" = true /\ v' = set_bp v b).
Proof.
  intros Hm. unfold merge_obs, bind at 1, lift at 1. rewrite Hm.
  destruct (is_channel m "hr" && truthy (obs_value obs)) eqn:E1;
    [ | destruct (is_channel m "spo2" && truthy (obs_value obs)) eqn:E2;
        [ | destruct (is_channel m "temp" && truthy (obs_value obs)) eqn:E3;
            [ | destruct (is_channel m "rr" && truthy (obs_value obs)) eqn:E4;
                [ | destruct (is_channel m "bp" && truthy (obs_systolic obs)) eqn:E5 ] ] ] ].
  1-4: unfold bind at 1, lift at 1;
    match goal with
    | |- (let (_, _) := (?x, _) in _) = _ -> _ => destruct x as [ value | ]
    | |- match ?x with _ => _ end = _ -> _ => destruct x as [ value | ]
    end; try discriminate;
    unfold bind at 1, generateTrend, default_count;
    match goal with
    | |- context [trend_points random ?b ?w ?i ?n ?k] =>
        destruct (trend_points random b w i n k) as [[ points | ] c1] eqn:Et
    end; try discriminate;
    unfold ret; intros [= <- <-]; right; left;
    eexists (Build_Channel _ points fhir);
    (split; [ exact (trend_points_length _ _ _ _ _ _ _ Et) | ]);
    (split; [ reflexivity | ]).
  - left. apply andb_true_iff in E1. split; [ tauto | reflexivity ].
  - right; left. apply andb_true_iff in E2. split; [ tauto | reflexivity ].
  - right; right; left. apply andb_true_iff in E3. split; [ tauto | reflexivity ].
  - right; right; right. apply andb_true_iff in E4. split; [ tauto | reflexivity ].
  - unfold bind at 1, lift at 1.
    destruct (Math_round_of (obs_systolic obs)) as [ s | ]; [ | discriminate ].
    unfold bind at 1. destruct (Math_round_of (obs_diastolic obs)) as [ d | ];
      [ | discriminate ].
    unfold ret. intros [= <- <-]. right; right.
    exists {| sys := s; dia := d; bp_source := fhir |}.
    split; [ reflexivity | ]. apply andb_true_iff in E5.
    split; [ tauto | reflexivity ].
  - unfold ret. intros [= <- <-]. left. reflexivity.
Qed.

Lemma merge_obs_defined (obs : ObservationRecord) (v v' : Vitals) (c c' : nat) :
  merge_obs random v obs c = (Normal v', c') ->
  exists m, vitalType_of obs = Normal m.
Proof.
  unfold merge_obs, bind at 1, lift at 1.
  destruct (vitalType_of obs) as [ m | ]; [ | discriminate ].
  intros _. exists m. reflexivity.
Qed.

(** A step of the merge changes at most the channel the observation's
    code resolves to: every other channel is the object it was. *)
Theorem merge_obs_frame (obs : ObservationRecord) (m : member)
  (v v' : Vitals) (c c' : nat) :
  vitalType_of obs = Normal m ->
  merge_obs random v obs c = (Normal v', c') ->
  (is_channel m "hr" = false -> hr v' = hr v)
  /\ (is_channel m "spo2" = false -> spo2 v' = spo2 v)
  /\ (is_channel m "temp" = false -> temp v' = temp v)
  /\ (is_channel m "rr" = false -> rr v' = rr v)
  /\ (is_channel m "bp" = false -> bp v' = bp v).
Proof.
  intros Hm H.
  destruct (merge_obs_result obs m v v' c c' Hm H)
    as [ -> | [ (ch & _ & _ & [ [E ->] | [ [E ->] | [ [E ->] | [E ->] ] ] ])
             | (b & _ & E & ->) ] ];
    repeat split; intro F; try reflexivity; rewrite E in F; discriminate F.
Qed.

Lemma merge_obs_fhir_kept (obs : ObservationRecord) (v v' : Vitals) (c c' : nat) :
  merge_obs random v obs c = (Normal v', c') -> fhir_kept v v'.
Proof.
  intro H. destruct (merge_obs_defined obs v v' c c' H) as (m & Hm).
  destruct (merge_obs_result obs m v v' c c' Hm H)
    as [ -> | [ (ch & _ & Hs & [ [_ ->] | [ [_ ->] | [ [_ ->] | [_ ->] ] ] ])
             | (b & Hs & _ & ->) ] ];
    unfold fhir_kept; cbn; repeat split; auto.
Qed.

Lemma merge_obs_twenty_points (obs : ObservationRecord) (v v' : Vitals) (c c' : nat) :
  merge_obs random v obs c = (Normal v', c') -> twenty_points v -> twenty_points v'.
Proof.
  intros H. destruct (merge_obs_defined obs v v' c c' H) as (m & Hm).
  unfold twenty_points, trend_lengths. cbn [map].
  destruct (merge_obs_result obs m v v' c c' Hm H)
    as [ -> | [ (ch & Hl & _ & [ [_ ->] | [ [_ ->] | [ [_ ->] | [_ ->] ] ] ])
             | (b & _ & _ & ->) ] ];
    cbn [hr spo2 temp rr set_hr set_spo2 set_temp set_rr set_bp];
    intros [= H1 H2 H3 H4]; rewrite ?Hl, ?H1, ?H2, ?H3, ?H4; reflexivity.
Qed.

(** The reading that comes later in the bundle wins: whatever the
    observations before it did to the heart rate, a numeric, non-zero
    heart-rate reading followed only by observations the merge does not
    recognise decides the value and the whole series of [hr], and leaves
    the other channels as the observations before it left them. *)
Theorem merge_later_reading_wins (before after : list ObservationRecord)
  (obs : ObservationRecord) (q : Q) (v v1 : Vitals) (c c1 : nat) :
  merge random v before c = (Normal v1, c1) ->
  obs_code obs = JString "8867-4" ->
  obs_value obs = JNumber (Num q) ->
  ~ q == 0 ->
  Forall unrecognised after ->
  merge random v (before ++ obs :: after) c
  = (Normal (set_hr v1
               {| ch_value := RNum (Math_round (Num q));
                  ch_trend := map (fun k => numeric_point q (Num 15) k
                                              (random (c1 + k)))
                                  (seq 0 20);
                  ch_source := fhir |}),
     (c1 + 20)%nat).
Proof.
  intros Hb Hcode Hvalue Hq Ha. unfold merge in *.
  rewrite forEach_app, Hb. cbn [forEach]. unfold bind at 1.
  rewrite (merge_obs_hr random obs q v1 c1 Hcode Hvalue Hq).
  apply forEach_inert. intros x Hx. apply merge_obs_unrecognised.
  revert x Hx. apply Forall_forall. exact Ha.
Qed.

End MoreMergeProperties.

(* ================================================================== *)
(** * Further properties of the load and of sequences of events *)

Lemma fhir_kept_refl (v : Vitals) : fhir_kept v v.
Proof. unfold fhir_kept. tauto. Qed.

Lemma fhir_kept_trans (a b c : Vitals) :
  fhir_kept a b -> fhir_kept b c -> fhir_kept a c.
Proof. unfold fhir_kept. tauto. Qed.

Lemma fhir_kept_badge (v v' : Vitals) :
  fhir_kept v v' -> showsFhirData v = true -> showsFhirData v' = true.
Proof.
  unfold fhir_kept, showsFhirData. cbn [existsb].
  intros (H1 & H2 & H3 & H4 & H5) H.
  repeat (apply orb_true_iff in H; destruct H as [ H | H ]);
    try discriminate H;
    match type of H with
    | is_fhir ?s = true =>
        assert (E : s = fhir) by (destruct s; [ discriminate H | reflexivity ])
    end.
  - rewrite (H1 E). reflexivity.
  - rewrite (H2 E). cbn. rewrite orb_true_r. reflexivity.
  - rewrite (H3 E). cbn. rewrite !orb_true_r. reflexivity.
  - rewrite (H4 E). cbn. rewrite !orb_true_r. reflexivity.
  - rewrite (H5 E). cbn. rewrite !orb_true_r. reflexivity.
Qed.

Section EventProperties.
Context {B : Builtins}.
Variable random : nat -> Q.

Ltac unfold_load :=
  unfold loadPatient, loadPatient_try, try_catch, bind, await,
    ret, lift, throw, setLoading, setPatient, setVitals, setFhirStatus,
    on_cursor, get;
  cbn [fst snd].

(** The vitals after a load are the vitals before it, or what the merge
    made of them. *)
Lemma loadPatient_vitals (patRes obsRes : Response) (now : Date) (w : World) :
  vitals (fst (loadPatient random patRes obsRes now w)) = vitals (fst w)
  \/ exists observations c',
       merge random (vitals (fst w)) observations (snd w)
       = (Normal (vitals (fst (loadPatient random patRes obsRes now w))), c').
Proof.
  unfold_load.
  destruct patRes as [ | patData ]; cbn [fst snd]; [ left; reflexivity | ].
  destruct (parseFhirPatient patData) as [ p | ]; cbn [fst snd];
    [ | left; reflexivity ].
  destruct obsRes as [ | obsBundle ]; cbn [fst snd]; [ left; reflexivity | ].
  destruct (nullish obsBundle); cbn [fst snd]; [ left; reflexivity | ].
  destruct (truthy (oget obsBundle "entry")); cbn [fst snd];
    [ | left; reflexivity ].
  destruct (call_map (oget obsBundle "entry") parse_entry) as [ observations | ];
    cbn [fst snd]; [ | left; reflexivity ].
  destruct (merge random (vitals (fst w)) observations (snd w))
    as [[ v' | ] c'] eqn:E; cbn [fst snd]; [ | left; reflexivity ].
  right. exists observations, c'. exact E.
Qed.

(** A property of the snapshot that every step of the merge and every
    drift keeps is kept by every event. *)
Lemma handle_preserves (P : Vitals -> Prop) :
  (forall obs v v' c c', merge_obs random v obs c = (Normal v', c') -> P v -> P v') ->
  (forall v c, P v -> P (fst (drift random v c))) ->
  forall (e : Event) (w : World),
    P (vitals (fst w)) -> P (vitals (fst (handle random e w))).
Proof.
  intros Hmerge Hdrift [ now | patRes obsRes now ] w HP; cbn [handle].
  - rewrite tick_unfold. cbn [fst vitals]. apply Hdrift. exact HP.
  - destruct (loadPatient_vitals patRes obsRes now w) as [ -> | (obs & c' & E) ];
      [ exact HP | ].
    unfold merge in E.
    refine (forEach_preserves P (merge_obs random) obs _ _ _ _ _ E HP).
    intros a x s a' s' H. exact (Hmerge x a a' s s' H).
Qed.

Lemma run_events_preserves (P : Vitals -> Prop) :
  (forall obs v v' c c', merge_obs random v obs c = (Normal v', c') -> P v -> P v') ->
  (forall v c, P v -> P (fst (drift random v c))) ->
  forall (es : list Event) (w : World),
    P (vitals (fst w)) -> P (vitals (fst (run_events random es w))).
Proof.
  intros Hmerge Hdrift es. induction es as [ | e es IH ]; intros w HP; [ exact HP | ].
  unfold run_events. cbn [fold_left]. fold (run_events random es (handle random e w)).
  apply IH. apply handle_preserves; assumption.
Qed.

(** Provenance is never demoted: when the events are handled one after
    the other (no load starts while another is under way), a channel
    marked as server-sourced stays so through every later tick and every
    later load, failed or not and whatever its bundle holds; so the FHIR
    Data badge, once shown, stays. *)
Theorem provenance_never_demoted (es : list Event) (w : World) :
  fhir_kept (vitals (fst w)) (vitals (fst (run_events random es w)))
  /\ (showsFhirData (vitals (fst w)) = true ->
      showsFhirData (vitals (fst (run_events random es w))) = true).
Proof.
  assert (H : fhir_kept (vitals (fst w)) (vitals (fst (run_events random es w)))).
  { apply (run_events_preserves (fhir_kept (vitals (fst w)))).
    - intros obs v v' c c' E Hv.
      exact (fhir_kept_trans _ _ _ Hv (merge_obs_fhir_kept random obs v v' c c' E)).
    - intros v c Hv. apply (fhir_kept_trans _ _ _ Hv).
      unfold fhir_kept. cbn. tauto.
    - apply fhir_kept_refl. }
  split; [ exact H | apply fhir_kept_badge; exact H ].
Qed.

(** The sliding windows keep their twenty points through every sequence
    of ticks and loads handled one after the other. *)
Theorem twenty_points_kept (es : list Event) (w : World) :
  twenty_points (vitals (fst w)) ->
  twenty_points (vitals (fst (run_events random es w))).
Proof.
  apply (run_events_preserves twenty_points).
  - intros obs v v' c c'. apply merge_obs_twenty_points.
  - intros v c Hv. unfold twenty_points in *.
    pose proof (tick_trend_lengths random 0%Z
                  ({| time := 0%Z; patient := None; loading := false;
                      fhirStatus := disconnected; vitals := v |}, c)) as Ht.
    rewrite tick_unfold in Ht. cbn [fst snd vitals] in Ht.
    rewrite Ht; [ exact Hv | ].
    rewrite Hv. cbn. intuition discriminate.
Qed.

End EventProperties.

Section MoreLoadProperties.
Context {B : Builtins}.
Variable random : nat -> Q.

Ltac unfold_try :=
  unfold loadPatient, loadPatient_try, try_catch, bind, await,
    ret, lift, throw, setLoading, setPatient, setVitals, setFhirStatus,
    on_cursor, get;
  cbn [fst snd].

(** A load that brings no reading the merge recognises (a bundle without
    entries, or with unrecognised observations only) shows the new patient
    as connected and keeps every channel, with its provenance, as it was:
    readings of the patient shown before stay on the screen. *)
Theorem loadPatient_without_readings (w : World) (patData obsBundle : JSValue)
  (p : PatientRecord) (now : Date) :
  parseFhirPatient patData = Normal p ->
  nullish obsBundle = false ->
  truthy (oget obsBundle "entry") = false
  \/ (exists entries observations,
         oget obsBundle "entry" = JArray entries
         /\ Array_map parse_entry entries = Normal observations
         /\ Forall unrecognised observations) ->
  loadPatient random (Resolved patData) (Resolved obsBundle) now w
  = ({| time := time (fst w);
        patient := Some p;
        loading := false;
        fhirStatus := {| connected := true; lastSync := Some now |};
        vitals := vitals (fst w) |}, snd w).
Proof.
  intros Hp Hn [ He | (entries & observations & He & Hobs & Hun) ].
  - unfold_try. rewrite Hp. cbn [fst snd]. rewrite Hn. cbn [fst snd].
    rewrite He. reflexivity.
  - apply (loadPatient_success random w patData obsBundle p entries observations
             (vitals (fst w)) (snd w) now Hp He Hobs).
    unfold merge. apply forEach_inert. intros x Hx.
    apply merge_obs_unrecognised. revert x Hx. apply Forall_forall. exact Hun.
Qed.

(** A temperature reading whose value is truthy and not a number (a text,
    say) has no [toFixed]: the merge throws, so the load ends as a failure
    with the new patient shown and the vitals untouched, the readings the
    bundle held before the temperature included. *)
Theorem loadPatient_temperature_not_a_number (w : World)
  (patData obsBundle : JSValue) (p : PatientRecord) (entries : list JSValue)
  (before after : list ObservationRecord) (obs : ObservationRecord) (now : Date) :
  parseFhirPatient patData = Normal p ->
  oget obsBundle "entry" = JArray entries ->
  Array_map parse_entry entries = Normal (before ++ obs :: after) ->
  (exists v1 c1, merge random (vitals (fst w)) before (snd w) = (Normal v1, c1)) ->
  obs_code obs = JString "8310-5" ->
  truthy (obs_value obs) = true ->
  (forall n, obs_value obs <> JNumber n) ->
  let w' := loadPatient random (Resolved patData) (Resolved obsBundle) now w in
  load_fails random w (Resolved patData) (Resolved obsBundle) now
  /\ vitals (fst w') = vitals (fst w)
  /\ patient (fst w') = Some p
  /\ fhirStatus (fst w') = disconnected.
Proof.
  intros Hp He Hobs (v1 & c1 & Hb) Hcode Ht Hnum.
  assert (Hn : nullish obsBundle = false)
    by (destruct obsBundle; try reflexivity; discriminate He).
  assert (Hthrow : merge random (vitals (fst w)) (before ++ obs :: after) (snd w)
                   = (Throw, c1)).
  { unfold merge in *. rewrite forEach_app, Hb. cbn [forEach]. unfold bind at 1.
    unfold merge_obs, bind at 1, lift at 1.
    rewrite (vitalType_of_string obs _ Hcode), Ht.
    cbn [VITAL_CODES_get assoc VITAL_CODES String.eqb Ascii.eqb Bool.eqb
           is_channel andb].
    unfold bind at 1, lift at 1.
    destruct (obs_value obs) eqn:Ev; try reflexivity.
    elim (Hnum n eq_refl). }
  unfold load_fails. unfold_try.
  rewrite Hp. cbn [fst snd]. rewrite Hn. cbn [fst snd]. rewrite He.
  cbn [truthy call_map fst snd]. rewrite Hobs. cbn [fst snd]. rewrite Hthrow.
  repeat split.
Qed.

(** The merge starts from the snapshot the load captured when it began,
    not from the snapshot on the screen when it completes: after ticks
    fired in between, a load whose bundle has entries, none of them
    recognised, puts the captured snapshot back and undoes their drift.
    (The ticks touch the clock and the vitals only, so running them before
    the [try] block stands for every interleaving with its requests.) *)
Theorem load_undoes_drift (w : World) (nows : list Date)
  (patData obsBundle : JSValue) (p : PatientRecord) (entries : list JSValue)
  (observations : list ObservationRecord) (now : Date) :
  parseFhirPatient patData = Normal p ->
  oget obsBundle "entry" = JArray entries ->
  Array_map parse_entry entries = Normal observations ->
  Forall unrecognised observations ->
  let started := snd (setLoading true w) in
  let drifted := run_ticks random nows started in
  let completed :=
    snd (loadPatient_try random (vitals (fst w))
           (Resolved patData) (Resolved obsBundle) now drifted) in
  vitals (fst completed) = vitals (fst w)
  /\ snd completed = snd drifted
  /\ patient (fst completed) = Some p.
Proof.
  intros Hp He Hobs Hun started drifted completed.
  assert (Hn : nullish obsBundle = false)
    by (destruct obsBundle; try reflexivity; discriminate He).
  assert (Hm : merge random (vitals (fst w)) observations (snd drifted)
               = (Normal (vitals (fst w)), snd drifted)).
  { unfold merge. apply forEach_inert. intros x Hx.
    apply merge_obs_unrecognised. revert x Hx. apply Forall_forall. exact Hun. }
  subst completed. unfold_try.
  rewrite Hp. cbn [fst snd]. rewrite Hn. cbn [fst snd]. rewrite He.
  cbn [truthy call_map fst snd]. rewrite Hobs. cbn [fst snd]. rewrite Hm.
  repeat split.
Qed.

(** A resource that carries a quantity value is read as a scalar whatever
    components it has, so a blood-pressure panel (85354-9) with a
    [valueQuantity] never reaches the [bp] channel. *)
Theorem quantity_shadows_panel (obs : JSValue) (v : Vitals) (c : nat) :
  nullish obs = false ->
  truthy (oget obs "valueQuantity") = true ->
  first_coding_code obs = JString "85354-9" ->
  exists o, parseFhirObservation obs = Normal o
            /\ obs_systolic o = JUndefined
            /\ merge_obs random v o c = (Normal v, c).
Proof.
  intros Hn Hq Hcode. unfold parseFhirObservation, get. rewrite Hn.
  cbn [cbind]. rewrite Hq. eexists. split; [ reflexivity | ].
  split; [ reflexivity | ].
  eapply merge_obs_skipped.
  - apply vitalType_of_string. cbn [obs_code]. exact Hcode.
  - discriminate.
  - reflexivity.
Qed.

(** A panel with a systolic component and no diastolic one gives a
    pressure whose diastolic side is [NaN], and the card then reads
    Elevated however low the systolic value is. *)
Theorem panel_without_diastolic (obs : JSValue) (comps : list JSValue)
  (c0 : JSValue) (s : Q) (v : Vitals) (c : nat) :
  truthy (oget obs "valueQuantity") = false ->
  oget obs "component" = JArray comps ->
  Forall (fun x => nullish x = false) comps ->
  first_coding_code obs = JString "85354-9" ->
  component_coded "8480-6" comps = Some c0 ->
  oget (oget c0 "valueQuantity") "value" = JNumber (Num s) ->
  ~ s == 0 ->
  (forall x, In x comps -> first_coding_code x <> JString "8462-4") ->
  exists o v',
    parseFhirObservation obs = Normal o
    /\ merge_obs random v o c = (Normal v', c)
    /\ bp v' = {| sys := Math_round (Num s); dia := NaN; bp_source := fhir |}
    /\ bpLabel (bp v') = "Elevated".
Proof.
  intros Hq Hc Hcomps Hcode Hsys Hval Hs Hno.
  rewrite (parseFhirObservation_panel obs comps Hq Hc Hcomps).
  rewrite Hsys, (component_coded_none _ _ Hno). cbn [quantity_value]. rewrite Hval.
  eexists. eexists. split; [ reflexivity | ].
  unfold merge_obs, bind at 1, lift at 1, vitalType_of. cbn [obs_code].
  rewrite Hcode. cbn [ToString cbind obs_value obs_systolic obs_diastolic].
  assert (Ht : truthy (JNumber (Num s)) = true).
  { cbn. apply negb_true_iff, not_true_iff_false.
    intro E. apply Hs. apply Qeq_bool_iff. exact E. }
  rewrite Ht.
  cbn [VITAL_CODES_get assoc VITAL_CODES String.eqb Ascii.eqb Bool.eqb
         is_channel andb truthy].
  split; [ reflexivity | ]. cbn [bp set_bp]. split; [ reflexivity | ].
  unfold bpLabel. cbn [sys dia]. rewrite andb_false_r. reflexivity.
Qed.

End MoreLoadProperties.

(* ================================================================== *)
(** * Further properties of the drift, the age and the search *)

Section MoreTickProperties.
Context {B : Builtins}.
Variable random : nat -> Q.

(** The clamp of the drift hides a low oxygen saturation: whatever value
    of at most 93 the channel holds (a server reading of 85, which is
    critical, say), one tick later it shows exactly 94, which classifies
    as a warning only, and still carries the provenance it had. *)
Theorem tick_masks_low_spo2 (now : Date) (w : World) (q : Q) :
  unit_draws random ->
  ch_value (spo2 (vitals (fst w))) = RNum (Num q) ->
  q <= 93 ->
  let v' := vitals (fst (tick random now w)) in
  ch_value (spo2 v') = RNum (Num 94)
  /\ ch_source (spo2 v') = ch_source (spo2 (vitals (fst w)))
  /\ getStatus (ch_value (spo2 v')) (Num 95) (Num 100) = warning
  /\ (q < 855 # 10 -> getStatus (RNum (Num q)) (Num 95) (Num 100) = critical).
Proof.
  intros Hdraws Hv Hq. cbn zeta. rewrite tick_unfold.
  cbn [fst vitals drift spo2 ch_value ch_source]. rewrite Hv. cbn [parseFloat].
  destruct (Hdraws (snd w + 2)%nat) as [H0 H1].
  assert (H2 : 0 <= 2) by lra.
  destruct (spread_bounds _ 2 H0 H1 H2) as (d & -> & _ & Hd).
  destruct (num_add_Num q d) as (s & -> & Hs).
  cbn [Math_round].
  assert (Hz : (Qfloor (s + (1 # 2)) <= 94)%Z).
  { change 94%Z with (Qfloor (945 # 10)). apply Qfloor_resp_le. rewrite Hs. lra. }
  set (z := Qfloor (s + (1 # 2))) in *.
  assert (Hclamp : Math_max (Num 94) (Math_min (Num 100) (Num (inject_Z z)))
                   = Num 94).
  { unfold Math_min.
    destruct (Qle_bool 100 (inject_Z z)) eqn:E1.
    - apply Qle_bool_iff in E1. change 100 with (inject_Z 100) in E1.
      rewrite <- Zle_Qle in E1. lia.
    - unfold Math_max. destruct (Qle_bool 94 (inject_Z z)) eqn:E2; [ | reflexivity ].
      apply Qle_bool_iff in E2. change 94 with (inject_Z 94) in E2.
      rewrite <- Zle_Qle in E2. assert (z = 94%Z) as -> by lia. reflexivity. }
  rewrite Hclamp. repeat split.
  intro Hcrit. rewrite getStatus_outside by lra.
  assert (E : num_lt (Num q) (Num (lower_margin 95)) = true).
  { apply (proj2 (num_lt_Num q (lower_margin 95))).
    replace (lower_margin 95) with (171 # 2) by (vm_compute; reflexivity). lra. }
  rewrite E. reflexivity.
Qed.

End MoreTickProperties.

Section AgeProperties.
Context {B : Builtins}.
Variable new_Date : JSValue -> completion number.

Lemma age_of_birth (p : PatientRecord) (now : Date) (t : Q) :
  truthy (pat_birthDate p) = true ->
  new_Date (pat_birthDate p) = Normal (Num t) ->
  exists x, age new_Date (Some p) now
            = Normal (JNumber (Num (inject_Z (Qfloor x))))
            /\ x * year_ms == inject_Z now - t.
Proof.
  intros Ht Hd. unfold age. rewrite Ht, Hd. cbn [cbind num_sub num_div].
  change (Qeq_bool 31557600000 0) with false. cbv iota.
  eexists. split; [ reflexivity | ].
  rewrite !Qred_correct. unfold year_ms. field.
Qed.

(** The age is the number of whole Julian years (of 31557600000 ms) from
    the time value of the birth date to the clock. *)
Theorem age_whole_years (p : PatientRecord) (now : Date) (t : Q) :
  truthy (pat_birthDate p) = true ->
  new_Date (pat_birthDate p) = Normal (Num t) ->
  exists a : Z,
    age new_Date (Some p) now = Normal (JNumber (Num (inject_Z a)))
    /\ inject_Z a * year_ms <= inject_Z now - t
    /\ inject_Z now - t < (inject_Z a + 1) * year_ms.
Proof.
  intros Ht Hd. destruct (age_of_birth p now t Ht Hd) as (x & E & Hx).
  exists (Qfloor x). split; [ exact E | ].
  pose proof (Qfloor_le x) as Hlo. pose proof (Qlt_floor x) as Hhi.
  rewrite inject_Z_plus in Hhi. change (inject_Z 1) with 1 in Hhi.
  assert (Hy : 0 < year_ms) by reflexivity.
  rewrite <- Hx. split.
  - apply Qmult_le_compat_r; [ exact Hlo | apply Qlt_le_weak; exact Hy ].
  - apply Qmult_lt_compat_r; assumption.
Qed.

(** For a patient that is shown, the patient line reads Age unknown when
    the birth date is missing, when it is not a valid date, and also in
    the first year of life, where the age is 0 and falsy. *)
Theorem age_unknown_cases (p : PatientRecord) (now : Date) :
  (truthy (pat_birthDate p) = false ->
   cbind (age new_Date (Some p) now) ageText = Normal "Age unknown")
  /\ (truthy (pat_birthDate p) = true ->
      new_Date (pat_birthDate p) = Normal NaN ->
      cbind (age new_Date (Some p) now) ageText = Normal "Age unknown")
  /\ (forall t, truthy (pat_birthDate p) = true ->
                new_Date (pat_birthDate p) = Normal (Num t) ->
                0 <= inject_Z now - t -> inject_Z now - t < year_ms ->
                age new_Date (Some p) now = Normal (JNumber (Num 0))
                /\ cbind (age new_Date (Some p) now) ageText
                   = Normal "Age unknown").
Proof.
  split; [ | split ].
  - intros Ht. unfold age. rewrite Ht. reflexivity.
  - intros Ht Hd. unfold age. rewrite Ht, Hd. reflexivity.
  - intros t Ht Hd H0 H1.
    destruct (age_of_birth p now t Ht Hd) as (x & E & Hx).
    assert (Hy : 0 < year_ms) by reflexivity.
    assert (Hz : Qfloor x = 0%Z).
    { rewrite <- Hx in H0, H1.
      assert (Hx0 : 0 <= x).
      { apply Qnot_lt_le. intro Hneg.
        assert (x * year_ms < 0 * year_ms)
          by (apply Qmult_lt_compat_r; assumption).
        lra. }
      assert (Hx1 : x < 1).
      { apply Qnot_le_lt. intro Hge.
        assert (1 * year_ms <= x * year_ms)
          by (apply Qmult_le_compat_r; [ exact Hge | apply Qlt_le_weak; exact Hy ]).
        lra. }
      pose proof (Qfloor_le x) as Hlo. pose proof (Qlt_floor x) as Hhi.
      assert (Ha : (0 <= Qfloor x)%Z).
      { change 0%Z with (Qfloor 0). apply Qfloor_resp_le. exact Hx0. }
      assert (Hb : (Qfloor x < 1)%Z).
      { rewrite Zlt_Qlt. apply (Qle_lt_trans _ x); [ exact Hlo | exact Hx1 ]. }
      lia. }
    rewrite E, Hz. split; reflexivity.
Qed.

End AgeProperties.

Lemma Array_map_throws {A : Type} (f : JSValue -> completion A) (l : list JSValue)
  (x : JSValue) :
  In x l -> f x = Throw -> Array_map f l = Throw.
Proof.
  intros Hin Hx. induction l as [ | y l IH ]; [ contradiction | ].
  cbn [Array_map]. destruct (f y) as [ b | ] eqn:Ey; [ | reflexivity ].
  cbn [cbind]. destruct Hin as [ -> | Hin ]; [ congruence | ].
  rewrite (IH Hin). reflexivity.
Qed.

Lemma Array_map_results {A : Type} (f : JSValue -> completion A)
  (l : list JSValue) (ys : list A) :
  Array_map f l = Normal ys -> Forall2 (fun x y => f x = Normal y) l ys.
Proof.
  revert ys. induction l as [ | x l IH ]; intros ys H.
  - cbn in H. injection H as <-. constructor.
  - cbn [Array_map] in H. destruct (f x) as [ y | ] eqn:Ex; [ | discriminate H ].
    cbn [cbind] in H. destruct (Array_map f l) as [ ys' | ]; [ | discriminate H ].
    cbn [cbind] in H. injection H as <-. constructor; [ exact Ex | ].
    apply IH. reflexivity.
Qed.

Section SearchProperties.
Context {B : Builtins}.
Variable String_trim : string -> string.

Ltac unfold_search :=
  unfold searchPatients, searchPatients_try, try_catch, bind, await, ret, lift,
    throw, setSearching, setResults, get;
  cbn [fst snd query results searching].

(** A search is all or nothing: when the request is rejected, or a single
    entry of the bundle cannot be parsed (it has no resource, say), the
    list of results stays the one from before, none of the patients that
    did parse is shown, and the search is over. *)
Theorem search_all_or_nothing (res : Response) (s : SearchState) :
  String_trim (query s) <> "" ->
  res = Rejected
  \/ (exists bundle entries e,
         res = Resolved bundle
         /\ oget bundle "entry" = JArray entries
         /\ In e entries
         /\ parse_patient_entry e = Throw) ->
  searchPatients String_trim res s
  = {| query := query s; results := results s; searching := false |}.
Proof.
  intros Hq H. apply String.eqb_neq in Hq. unfold_search. rewrite Hq.
  destruct H as [ -> | (bundle & entries & e & -> & He & Hin & Hthrow) ];
    [ reflexivity | ].
  assert (Hn : nullish bundle = false)
    by (destruct bundle; try reflexivity; discriminate He).
  cbn [fst snd query results searching]. rewrite Hn.
  cbn [fst snd query results searching]. rewrite He.
  unfold js_or. cbn [truthy call_map].
  rewrite (Array_map_throws parse_patient_entry entries e Hin Hthrow).
  reflexivity.
Qed.

(** A search that succeeds replaces the results by the parsed patients,
    one per entry and in the order of the bundle (their ids are the ids of
    the resources); a bundle with no [entry] clears the results. *)
Theorem search_results_in_order (bundle : JSValue) (s : SearchState) :
  String_trim (query s) <> "" ->
  nullish bundle = false ->
  (truthy (oget bundle "entry") = false ->
   searchPatients String_trim (Resolved bundle) s
   = {| query := query s; results := []; searching := false |})
  /\ (forall entries patients,
         oget bundle "entry" = JArray entries ->
         Array_map parse_patient_entry entries = Normal patients ->
         searchPatients String_trim (Resolved bundle) s
         = {| query := query s; results := patients; searching := false |}
         /\ map pat_id patients
            = map (fun e => oget (oget e "resource") "id") entries).
Proof.
  intros Hq Hn. apply String.eqb_neq in Hq. split.
  - intro He. unfold_search. rewrite Hq.
    cbn [fst snd query results searching]. rewrite Hn.
    cbn [fst snd query results searching]. unfold js_or. rewrite He. reflexivity.
  - intros entries patients He Hmap. split.
    + unfold_search. rewrite Hq.
      cbn [fst snd query results searching]. rewrite Hn.
      cbn [fst snd query results searching]. rewrite He.
      unfold js_or. cbn [truthy call_map]. rewrite Hmap. reflexivity.
    + apply Array_map_results in Hmap. clear He.
      induction Hmap as [ | e r entries' patients' Her _ IH ]; [ reflexivity | ].
      cbn [map]. f_equal; [ | exact IH ].
      unfold parse_patient_entry, get in Her.
      destruct (nullish e) eqn:Ee; [ discriminate Her | ].
      cbn [cbind] in Her.
      destruct (parseFhirPatient_plain_fields _ _ Her) as (Hid & _). exact Hid.
Qed.

(** A query that trims to nothing starts no search: nothing changes. *)
Lemma search_blank_query (res : Response) (s : SearchState) :
  String_trim (query s) = "" -> searchPatients String_trim res s = s.
Proof. intro H. unfold searchPatients. rewrite H. reflexivity. Qed.

End SearchProperties.

(* ================================================================== *)
(** * Example runs of the further properties *)

(** The record number of a patient with identifiers typed SS, MR, MR is
    the value of the first MR. *)
Lemma parseFhirPatient_mrn_run :
  exists r,
    parseFhirPatient (B := decimal_builtins) patient_with_identifiers = Normal r
    /\ pat_mrn r = JString "12345".
Proof.
  eexists. split; [ reflexivity | ].
  refine (proj1 (proj2 (parseFhirPatient_mrn (B := decimal_builtins)
                          patient_with_identifiers _ eq_refl))
            _ [ typed_identifier "SS" "078-05-1120" ]
            (typed_identifier "MR" "12345")
            [ typed_identifier "MR" "67890" ] eq_refl eq_refl _ eq_refl).
  intros y [ <- | [] ]. discriminate.
Defined.

(** The display name of the same patient. *)
Lemma parseFhirPatient_name_run :
  exists r,
    parseFhirPatient (B := decimal_builtins) patient_with_identifiers = Normal r
    /\ pat_name r = JString "Grace B. Hopper".
Proof.
  eexists. split; [ reflexivity | ].
  exact (proj1 (parseFhirPatient_name (B := decimal_builtins)
                  patient_with_identifiers [ "Grace"; "B." ]%string _
                  eq_refl eq_refl)
           "Hopper"%string eq_refl).
Defined.

(** A heart-rate reading leaves the four other channels of the sample
    snapshot alone. *)
Lemma merge_obs_frame_run :
  exists v' c',
    merge_obs (B := decimal_builtins) alternating sample_vitals (hr_reading 85) 0%nat
    = (Normal v', c')
    /\ spo2 v' = spo2 sample_vitals
    /\ temp v' = temp sample_vitals
    /\ rr v' = rr sample_vitals
    /\ bp v' = bp sample_vitals.
Proof.
  eexists. eexists. split; [ vm_compute; reflexivity | ].
  destruct (merge_obs_frame (B := decimal_builtins) alternating (hr_reading 85)
              (Own "hr") sample_vitals _ 0%nat _ eq_refl eq_refl)
    as (_ & H2 & H3 & H4 & H5).
  split; [ apply H2; reflexivity | ]. split; [ apply H3; reflexivity | ].
  split; [ apply H4; reflexivity | apply H5; reflexivity ].
Defined.

(** Of the readings 90 and then 85, the later one is shown. *)
Lemma merge_later_reading_wins_run :
  exists v' c',
    merge (B := decimal_builtins) alternating sample_vitals
      [ hr_reading 90; hr_reading 85 ] 0%nat
    = (Normal v', c')
    /\ ch_value (hr v') = RNum (Num 85).
Proof.
  assert (H85 : ~ 85 == 0) by discriminate.
  eexists. eexists. split.
  - exact (merge_later_reading_wins (B := decimal_builtins) alternating
             [ hr_reading 90 ] [] (hr_reading 85) 85 sample_vitals _ 0%nat _
             eq_refl eq_refl eq_refl H85 (Forall_nil _)).
  - reflexivity.
Defined.

(** From the seeded channels, a tick, a rejected load, a load with a heart
    rate and another tick leave twenty points in every series. *)
Lemma twenty_points_kept_run :
  exists v,
    initialVitals (B := decimal_builtins) alternating 0%nat = (Normal v, 80%nat)
    /\ twenty_points v
    /\ twenty_points
         (vitals (fst (run_events (B := decimal_builtins) alternating
                         [ Tick 3000%Z;
                           Load Rejected Rejected 4000%Z;
                           Load (Resolved (patient_resource "p2" "Lovelace"))
                                (Resolved weight_then_hr85) 5000%Z;
                           Tick 6000%Z ]
                         (initialState 0%Z v, 80%nat)))).
Proof.
  eexists. split; [ vm_compute; reflexivity | ].
  assert (H : twenty_points
                (vitals (fst (initialState 0%Z
                                (match fst (initialVitals (B := decimal_builtins)
                                              alternating 0%nat) with
                                 | Normal v => v
                                 | Throw => sample_vitals
                                 end), 80%nat))))
    by (vm_compute; reflexivity).
  split; [ exact H | ].
  exact (twenty_points_kept (B := decimal_builtins) alternating _ _ H).
Defined.

(** Loading another patient whose bundle has no entry keeps the vitals of
    the sample dashboard. *)
Lemma loadPatient_without_readings_run :
  loadPatient (B := decimal_builtins) alternating
    (Resolved (patient_resource "p2" "Lovelace"))
    (Resolved (JObject [ ("resourceType", JString "Bundle") ])) 2000%Z sample_world
  = ({| time := 1000%Z;
        patient := Some {| pat_id := JString "p2";
                           pat_name := JString "Ada Lovelace";
                           pat_gender := JString "female";
                           pat_birthDate := JString "1980-02-29";
                           pat_mrn := JString "p2" |};
        loading := false;
        fhirStatus := {| connected := true; lastSync := Some 2000%Z |};
        vitals := sample_vitals |}, 0%nat).
Proof.
  apply (loadPatient_without_readings (B := decimal_builtins) alternating sample_world).
  - reflexivity.
  - reflexivity.
  - left. reflexivity.
Defined.

(** A temperature given as the text 37.2, after a heart rate of 85: the
    load fails and the heart rate is not shown. *)
Lemma loadPatient_temperature_not_a_number_run :
  let bundle := bundle_of [ scalar_observation "8867-4" 85;
                            text_observation "8310-5" "37.2" ] in
  let w' := loadPatient (B := decimal_builtins) alternating
              (Resolved (patient_resource "p2" "Lovelace")) (Resolved bundle)
              2000%Z sample_world in
  load_fails (B := decimal_builtins) alternating sample_world
    (Resolved (patient_resource "p2" "Lovelace")) (Resolved bundle) 2000%Z
  /\ vitals (fst w') = sample_vitals
  /\ connected (fhirStatus (fst w')) = false.
Proof.
  intros bundle w'.
  destruct (loadPatient_temperature_not_a_number (B := decimal_builtins)
              alternating sample_world (patient_resource "p2" "Lovelace") bundle
              {| pat_id := JString "p2";
                 pat_name := JString "Ada Lovelace";
                 pat_gender := JString "female";
                 pat_birthDate := JString "1980-02-29";
                 pat_mrn := JString "p2" |}
              [ entry_of (scalar_observation "8867-4" 85);
                entry_of (text_observation "8310-5" "37.2") ]
              [ hr_reading 85 ] []
              (Scalar (JString "8310-5") JUndefined (JString "37.2") (JString "")
                 JUndefined)
              2000%Z)
    as (H1 & H2 & _ & H4).
  - reflexivity.
  - reflexivity.
  - reflexivity.
  - eexists. eexists. vm_compute. reflexivity.
  - reflexivity.
  - reflexivity.
  - intros n E. discriminate E.
  - split; [ exact H1 | ]. split; [ exact H2 | ].
    subst w'. rewrite H4. reflexivity.
Defined.

(** Two ticks fire while a load of a bundle with a body weight only is
    under way: when it completes, the vitals are those from before the
    ticks. *)
Lemma load_undoes_drift_run :
  let started := snd (setLoading true sample_world) in
  let drifted := run_ticks (B := decimal_builtins) alternating
                   [ 3000%Z; 6000%Z ] started in
  let completed :=
    snd (loadPatient_try (B := decimal_builtins) alternating sample_vitals
           (Resolved (patient_resource "p2" "Lovelace"))
           (Resolved (bundle_of [ scalar_observation "29463-7" 70 ]))
           7000%Z drifted) in
  vitals (fst drifted) <> sample_vitals
  /\ vitals (fst completed) = sample_vitals.
Proof.
  intros started drifted completed. split.
  - vm_compute. intro E. discriminate E.
  - refine (proj1 (load_undoes_drift (B := decimal_builtins) alternating
                     sample_world [ 3000%Z; 6000%Z ]
                     (patient_resource "p2" "Lovelace")
                     (bundle_of [ scalar_observation "29463-7" 70 ])
                     _ [ entry_of (scalar_observation "29463-7" 70) ]
                     [ Scalar (JString "29463-7") JUndefined (JNumber (Num 70))
                         (JString "") JUndefined ]
                     7000%Z eq_refl eq_refl eq_refl _)).
    constructor; [ | constructor ].
    exists Absent. split; [ reflexivity | ]. intros lit _. reflexivity.
Defined.

(** A panel 120 over 80 that also carries a quantity value is passed
    over. *)
Lemma quantity_shadows_panel_run :
  exists o,
    parseFhirObservation panel_with_quantity = Normal o
    /\ obs_systolic o = JUndefined
    /\ merge_obs (B := decimal_builtins) alternating sample_vitals o 0%nat
       = (Normal sample_vitals, 0%nat).
Proof.
  apply (quantity_shadows_panel (B := decimal_builtins) alternating
           panel_with_quantity sample_vitals 0%nat); reflexivity.
Defined.

(** A panel with a systolic value of 110 alone reads Elevated. *)
Lemma panel_without_diastolic_run :
  exists o v',
    parseFhirObservation (bp_panel [ coded_component "8480-6" 110 ]) = Normal o
    /\ merge_obs (B := decimal_builtins) alternating sample_vitals o 0%nat
       = (Normal v', 0%nat)
    /\ bp v' = {| sys := Math_round (Num 110); dia := NaN; bp_source := fhir |}
    /\ bpLabel (bp v') = "Elevated"%string.
Proof.
  assert (H110 : ~ 110 == 0) by discriminate.
  apply (panel_without_diastolic (B := decimal_builtins) alternating
           (bp_panel [ coded_component "8480-6" 110 ])
           [ coded_component "8480-6" 110 ]
           (coded_component "8480-6" 110) 110 sample_vitals 0%nat);
    try reflexivity; try exact H110.
  - repeat constructor.
  - intros x [ <- | [] ]. discriminate.
Defined.

(** A server reading of 85 for the oxygen saturation is shown as 94 after
    the next tick. *)
Lemma tick_masks_low_spo2_run :
  let v' := vitals (fst (tick (B := decimal_builtins) alternating 2000%Z
                           low_spo2_world)) in
  unit_draws alternating
  /\ ch_value (spo2 v') = RNum (Num 94)
  /\ ch_source (spo2 v') = fhir
  /\ getStatus (B := decimal_builtins) (ch_value (spo2 v')) (Num 95) (Num 100)
     = warning
  /\ getStatus (B := decimal_builtins) (RNum (Num 85)) (Num 95) (Num 100)
     = critical.
Proof.
  intro v'.
  assert (H93 : 85 <= 93) by discriminate.
  assert (Hc : 85 < 855 # 10) by reflexivity.
  destruct (tick_masks_low_spo2 (B := decimal_builtins) alternating 2000%Z
              low_spo2_world 85 alternating_unit eq_refl H93)
    as (H1 & H2 & H3 & H4).
  split; [ exact alternating_unit | ].
  split; [ exact H1 | ]. split; [ exact H2 | ]. split; [ exact H3 | exact (H4 Hc) ].
Defined.

(** Born at the epoch, a patient is 31 when the clock reads 10^12 ms. *)
Lemma age_whole_years_run :
  exists a : Z,
    age date_of_epoch (Some sample_patient) 1000000000000%Z
    = Normal (JNumber (Num (inject_Z a)))
    /\ inject_Z a * year_ms <= inject_Z 1000000000000 - 0
    /\ inject_Z 1000000000000 - 0 < (inject_Z a + 1) * year_ms.
Proof.
  exact (age_whole_years date_of_epoch sample_patient 1000000000000%Z 0
           eq_refl eq_refl).
Defined.

(** One entry without a resource among the entries of a bundle: the
    results of the earlier search stay. *)
Lemma search_all_or_nothing_run :
  searchPatients (B := decimal_builtins) trim_of_trimmed
    (Resolved (JObject [ ("entry",
                          JArray [ entry_of (patient_resource "p2" "Lovelace");
                                   entry_without_resource ]) ]))
    sample_search
  = sample_search.
Proof.
  refine (search_all_or_nothing (B := decimal_builtins) trim_of_trimmed _
            sample_search _ _).
  - discriminate.
  - right. eexists. eexists. exists entry_without_resource.
    split; [ reflexivity | ]. split; [ reflexivity | ].
    split; [ right; left; reflexivity | reflexivity ].
Defined.

(** Two patients found, in the order of the bundle. *)
Lemma search_results_in_order_run :
  exists patients,
    searchPatients (B := decimal_builtins) trim_of_trimmed
      (Resolved (JObject [ ("entry",
                            JArray [ entry_of (patient_resource "p2" "Lovelace");
                                     entry_of (patient_resource "p1" "Byron") ]) ]))
      sample_search
    = {| query := "Byron"; results := patients; searching := false |}
    /\ map pat_id patients = [ JString "p2"; JString "p1" ].
Proof.
  assert (Hq : trim_of_trimmed (query sample_search) <> ""%string) by discriminate.
  eexists.
  exact (proj2 (search_results_in_order (B := decimal_builtins) trim_of_trimmed
                  (JObject [ ("entry",
                              JArray [ entry_of (patient_resource "p2" "Lovelace");
                                       entry_of (patient_resource "p1" "Byron") ]) ])
                  sample_search Hq eq_refl)
           _ _ eq_refl eq_refl).
Defined.

(** A channel read from the server keeps the badge through a tick, a load
    that is rejected and a load that brings a heart rate. *)
Lemma provenance_never_demoted_run :
  showsFhirData
    (vitals (fst (run_events (B := decimal_builtins) alternating
                    [ Tick 3000%Z;
                      Load Rejected Rejected 4000%Z;
                      Load (Resolved (patient_resource "p2" "Lovelace"))
                           (Resolved (bundle_of [ scalar_observation "8867-4" 85 ]))
                           5000%Z ]
                    low_spo2_world)))
  = true.
Proof.
  apply (proj2 (provenance_never_demoted (B := decimal_builtins) alternating _
                  low_spo2_world)).
  reflexivity.
Defined.

(** Born at the epoch, a patient reads Age unknown one second later. *)
Lemma age_unknown_cases_run :
  cbind (age date_of_epoch (Some sample_patient) 1000%Z)
        (ageText (B := decimal_builtins))
  = Normal "Age unknown"%string.
Proof.
  assert (H0 : 0 <= inject_Z 1000 - 0) by discriminate.
  assert (H1 : inject_Z 1000 - 0 < year_ms) by reflexivity.
  exact (proj2 (proj2 (proj2 (age_unknown_cases (B := decimal_builtins)
                                date_of_epoch sample_patient 1000%Z))
                  0 eq_refl eq_refl H0 H1)).
Defined.
